(** * The order model of federated-monolith-services (src/models/order.js)

    A shallow embedding of [order.js]: the item check and the total, the
    guards on status changes and on the signature requirement, the order
    factory, the adapter continuations, the status-keyed actions and the
    event dispatcher; and the properties its specification states, proved
    of the embedding or refuted on a concrete input.

    - JavaScript numbers are IEEE-754 binary64 values: they are Rocq's
      primitive floats, the same values with the same rounding.
    - Objects are finite maps from property names to values.
    - A function that can throw returns a [result]; one that also calls the
      order's methods leaves a trace of those calls.
    - An [async] function is what it does before it returns together with
      the promise it returns; promises are described by what settles them
      and read against the history of the adapters' results. *)

From Stdlib Require Import Floats.
From stdpp Require Import base strings gmap list.

#[local] Set Warnings "-register-all,-inexact-float".
#[local] Open Scope string_scope.

(** ** JavaScript values and the runtime operations the source uses *)

Module JS.

(** The values [order.js] handles.  Functions, symbols and bigints do not
    occur as data in it. *)
Inductive value :=
| VUndefined
| VNull
| VBool (b : bool)
| VNum (n : float)
| VStr (s : string)
| VObj (props : gmap string value)
| VArr (elems : list value).

(** What a [throw] carries.  The messages of errors raised by the engine
    itself ([TypeError], [ReferenceError]) are engine specific; the ones
    written here only say where they come from. *)
Inductive exn :=
| Error (msg : string)
| TypeError (msg : string)
| ReferenceError (msg : string).

(** A computation that returns or throws. *)
Inductive result (A : Type) :=
| Ok (a : A)
| Throw (e : exn).
Arguments Ok {A} a.
Arguments Throw {A} e.

#[global] Instance result_ret : MRet result := fun A a => Ok a.
#[global] Instance result_bind : MBind result := fun A B f m =>
  match m with
  | Ok a => f a
  | Throw e => Throw e
  end.

(** [ToBoolean]: the falsy values are [undefined], [null], [false], [+0],
    [-0], [NaN] and the empty string. *)
Definition truthy (v : value) : bool :=
  match v with
  | VUndefined | VNull => false
  | VBool b => b
  | VNum n => negb (PrimFloat.eqb n 0%float) && PrimFloat.eqb n n
  | VStr s => negb (String.eqb s "")
  | VObj _ | VArr _ => true
  end.

(** [typeof v === "number"] *)
Definition is_number (v : value) : bool :=
  match v with VNum _ => true | _ => false end.

(** [typeof v === "boolean"] *)
Definition is_boolean (v : value) : bool :=
  match v with VBool _ => true | _ => false end.

(** [v === s] for a string literal [s] (strict equality: no coercion). *)
Definition strict_eq_str (v : value) (s : string) : bool :=
  match v with VStr s' => String.eqb s' s | _ => false end.

(** [l.includes(v)] for a list [l] of string literals. *)
Definition includes (l : list string) (v : value) : bool :=
  existsb (strict_eq_str v) l.

(** The property read [v.k].  On [undefined] and [null] it throws; on an
    object it is the property or [undefined]; on the other values it is
    [undefined] for every name the source reads ([itemId], [price], [qty],
    [orderStatus]: none of them is on a prototype). *)
Definition get (v : value) (k : string) : result value :=
  match v with
  | VUndefined | VNull => Throw (TypeError ("cannot read property " ++ k))
  | VObj props => Ok (default VUndefined (props !! k))
  | VBool _ | VNum _ | VStr _ | VArr _ => Ok VUndefined
  end.

(** The optional chain [v?.k]. *)
Definition get_opt (v : value) (k : string) : result value :=
  match v with
  | VUndefined | VNull => Ok VUndefined
  | _ => get v k
  end.

(** [a || b] on values. *)
Definition or_else (a b : value) : value := if truthy a then a else b.

(** [l.every(f)] and [l.some(f)] for a callback that may throw: both stop
    at the first element that decides the answer. *)
Fixpoint every (f : value -> result bool) (l : list value) : result bool :=
  match l with
  | [] => Ok true
  | x :: l' => b ← f x; if b : bool then every f l' else Ok false
  end.

Fixpoint some {A} (f : A -> result bool) (l : list A) : result bool :=
  match l with
  | [] => Ok false
  | x :: l' => b ← f x; if b : bool then Ok true else some f l'
  end.

(** [l.reduce(f, init)] for a callback that may throw. *)
Fixpoint reduce {A} (f : A -> value -> result A) (l : list value) (init : A)
  : result A :=
  match l with
  | [] => Ok init
  | x :: l' => acc ← f init x; reduce f l' acc
  end.

Section ToNumber.
(** The conversion of a string to a number goes through the number
    grammar, and the one of an array through [Array.prototype.join] (which
    can throw) and then the grammar; both are left as parameters: nothing
    proved below depends on what they return. *)
Variable StringToNumber : string -> float.
Variable ArrayToNumber : list value -> result float.

(** [ToNumber].  A plain object converts to [NaN] through the inherited
    [toString]; one that has a [toString] of its own cannot be converted (no
    value here is a function). *)
Definition ToNumber (v : value) : result float :=
  match v with
  | VUndefined => Ok nan
  | VNull => Ok 0%float
  | VBool b => Ok (if b then 1%float else 0%float)
  | VNum n => Ok n
  | VStr s => Ok (StringToNumber s)
  | VObj props =>
      match props !! "toString" with
      | Some _ => Throw (TypeError "cannot convert object to primitive value")
      | None => Ok nan
      end
  | VArr l => ArrayToNumber l
  end.

(** [a * b] *)
Definition times (a b : value) : result float :=
  x ← ToNumber a; y ← ToNumber b; mret (x * y)%float.
End ToNumber.

End JS.
Import JS.

(** ** order.js: status names, guards and totals *)

(** [OrderStatus]: the five status names. *)
Module OrderStatus.
Definition PENDING : string := "PENDING".
Definition APPROVED : string := "APPROVED".
Definition SHIPPING : string := "SHIPPING".
Definition COMPLETE : string := "COMPLETE".
Definition CANCELED : string := "CANCELED".
End OrderStatus.

(** The external calls an order offers (its ports), and the continuations
    [order.js] hands to them. *)
Inductive port :=
| validateAddress | authorizePayment | pickOrder | trackShipment | compensate.

Inductive continuation :=
| K_addressValidated | K_paymentAuthorized | K_orderPicked | K_trackingUpdate.

(** An order as the functions of [order.js] see it (the [Order] typedef).
    The model layer that builds it (./mixins and the port wiring) is not part
    of the sources, so its methods are fields of the record:
    - [fields]: the order's own data properties;
    - [PREVMODEL]: the property [o[PREVMODEL]], the snapshot of the order
      before the pending update ([undefined] when there is none);
    - [update]: what awaiting [order.update(changes)] gives, the updated order
      or the error it rejects with;
    - [port_call]: what the call [order.<port>(k)] does synchronously, [None]
      when it returns its promise and [Some e] when it throws [e]. *)
Record Order := {
  fields : gmap string value;
  PREVMODEL : value;
  update : gmap string value -> result value;
  port_call : port -> option exn;
}.

(** The property read [o.k] on an order. *)
Definition field (o : Order) (k : string) : value :=
  default VUndefined (fields o !! k).

Section Guards.
Variable StringToNumber : string -> float.
Variable ArrayToNumber : list value -> result float.

(** The callback of [items.every] in [checkItems]:
    [(i) => i.itemId && typeof i.price === "number"]. *)
Definition item_ok (i : value) : result bool :=
  id ← get i "itemId";
  if truthy id then p ← get i "price"; mret (is_number p) else mret false.

(** [checkItems] *)
Definition checkItems (orderItems : value) : result (list value) :=
  if negb (truthy orderItems) then Throw (Error "order contains no items")
  else
    let items :=
      match orderItems with VArr l => l | _ => [orderItems] end in
    ok ← (if (0 <? length items)%nat then every item_ok items else mret false);
    if ok : bool then mret items else Throw (Error "order items invalid").

(** The callback of [items.reduce] in [calcTotal]:
    [const qty = item.qty || 1; return (total += item.price * qty)]. *)
Definition add_item (total : float) (item : value) : result float :=
  q ← get item "qty";
  let qty := or_else q (VNum 1%float) in
  p ← get item "price";
  line ← times StringToNumber ArrayToNumber p qty;
  mret (total + line)%float.

(** [calcTotal] *)
Definition calcTotal (orderItems : value) : result float :=
  items ← checkItems orderItems;
  reduce add_item items 0%float.

(** [freezeOnCompletion] *)
Definition freezeOnCompletion (propKey : string) (o : Order) : result value :=
  st ← get (PREVMODEL o) "orderStatus";
  mret (if includes [OrderStatus.COMPLETE; OrderStatus.CANCELED] st
        then VStr propKey else VNull).

(** [invalidStatusChange]: [propVal === to && o[PREVMODEL].orderStatus === from] *)
Definition invalidStatusChange (from to : string)
  : Order -> value -> result bool :=
  fun o propVal =>
    if strict_eq_str propVal to
    then st ← get (PREVMODEL o) "orderStatus"; mret (strict_eq_str st from)
    else mret false.

(** [invalidStatusChanges] *)
Definition invalidStatusChanges : list (Order -> value -> result bool) :=
  [ invalidStatusChange OrderStatus.APPROVED OrderStatus.PENDING;
    invalidStatusChange OrderStatus.SHIPPING OrderStatus.PENDING;
    invalidStatusChange OrderStatus.SHIPPING OrderStatus.APPROVED;
    invalidStatusChange OrderStatus.PENDING OrderStatus.SHIPPING;
    invalidStatusChange OrderStatus.PENDING OrderStatus.COMPLETE ].

(** [statusChangeValid] *)
Definition statusChangeValid (o : Order) (propVal : value) : result bool :=
  prev ← get_opt (PREVMODEL o) "orderStatus";
  if negb (truthy prev) then mret true
  else
    bad ← some (fun isc => isc o propVal) invalidStatusChanges;
    if bad : bool then Throw (Error "invalid status change") else mret true.

(** [updateSignature]:
    [calcTotal(propVal) > 999.99 || o.signatureRequired] *)
Definition updateSignature (o : Order) (propVal : value)
  : result (gmap string value) :=
  total ← calcTotal propVal;
  mret {[ "signatureRequired" :=
            or_else (VBool (999.99 <? total)%float)
                    (field o "signatureRequired") ]}.

(** [needSignature]: the conditional is an expression statement and the
    function has no [return], so a call that gets through it gives
    [undefined]; the branch for a boolean [input] reads [requireSignature],
    which is not bound in the function's scope. *)
Definition needSignature (input : value) (orderTotal : float) : result value :=
  _ ← (if is_boolean input
       then Throw (ReferenceError "requireSignature is not defined")
       else mret (VBool (999.99 <? orderTotal)%float));
  mret VUndefined.

(** What [orderFactory] is given: [uuid] is the value the call
    [dependencies.uuid()] returns, [None] when [dependencies] has no such
    function. *)
Record Dependencies := { uuid : option value }.

(** [checkFormat] of ./mixins is not part of the sources: it returns or
    throws. *)
Variable checkFormat : value -> string -> result unit.

(** A destructured parameter [{ k = dflt }]: the default replaces
    [undefined]. *)
Definition param (args : gmap string value) (k : string) (dflt : value)
  : value :=
  match args !! k with
  | Some VUndefined | None => dflt
  | Some v => v
  end.

(** [orderFactory(dependencies)], the function [createOrder]; the order it
    resolves to, or the error it rejects with.  [Object.freeze] does not
    change the value. *)
Definition orderFactory (dependencies : Dependencies)
    (args : gmap string value) : result value :=
  let customerInfo := param args "customerInfo" VUndefined in
  let orderItems := param args "orderItems" VUndefined in
  let billingAddress := param args "billingAddress" VNull in
  let shippingAddress := param args "shippingAddress" VNull in
  let creditCardNumber := param args "creditCardNumber" VNull in
  let requireSignature := param args "requireSignature" VUndefined in
  total ← calcTotal orderItems;
  _ ← checkFormat creditCardNumber "creditCard";
  signatureRequired ← needSignature requireSignature total;
  orderNo ← match uuid dependencies with
             | Some id => Ok id
             | None => Throw (TypeError "dependencies.uuid is not a function")
             end;
  mret (VObj {[ "customerInfo" := customerInfo;
                "orderItems" := orderItems;
                "creditCardNumber" := creditCardNumber;
                "billingAddress" := billingAddress;
                "shippingAddress" := shippingAddress;
                "signatureRequired" := signatureRequired;
                "orderTotal" := VNum total;
                "orderStatus" := VStr OrderStatus.PENDING;
                "orderNo" := orderNo ]}).

End Guards.

(** ** order.js: continuations, per-status actions and the dispatcher *)

(** What the functions below do to the outside, in the order they do it. *)
Inductive event :=
| Update (changes : gmap string value)         (* order.update(changes) *)
| Invoke (p : port) (k : option continuation)  (* order.<p>(k) *)
| ConsoleLog (msg : string)
| ConsoleError (func : string) (error : exn).

(** A computation that leaves a trace of events and returns or throws. *)
Record M (A : Type) := Run { trace : list event; outcome : result A }.
Arguments Run {A} trace outcome.
Arguments trace {A} m.
Arguments outcome {A} m.

#[global] Instance M_ret : MRet M := fun A a => Run [] (Ok a).
#[global] Instance M_bind : MBind M := fun A B f m =>
  match outcome m with
  | Ok a => Run (trace m ++ trace (f a)) (outcome (f a))
  | Throw e => Run (trace m) (Throw e)
  end.

Definition throw {A} (e : exn) : M A := Run [] (Throw e).
Definition emit (ev : event) : M unit := Run [ev] (Ok ()).

(** [try { m } catch (error) { h error }] *)
Definition try_catch {A} (m : M A) (h : exn -> M A) : M A :=
  match outcome m with
  | Ok _ => m
  | Throw e => Run (trace m ++ trace (h e)) (outcome (h e))
  end.

(** [String(error)], the message [new Error(error)] gets. *)
Definition exn_to_string (e : exn) : string :=
  let show name msg := if String.eqb msg "" then name else name ++ ": " ++ msg in
  match e with
  | Error msg => show "Error" msg
  | TypeError msg => show "TypeError" msg
  | ReferenceError msg => show "ReferenceError" msg
  end.

(** [await order.update(changes)] *)
Definition order_update (order : Order) (changes : gmap string value) : M value :=
  Run [Update changes] (update order changes).

(** A promise, by what settles it: it is settled already, or it is the one
    the call of a port returned, or [Promise.all] of others, or the promise of
    an [async] function that awaits another and then returns nothing. *)
Inductive promise :=
| Settled (r : result value)
| OfPort (p : port)
| All (ps : list promise)
| Awaited (p : promise).

Definition resolved : promise := Settled (Ok VUndefined).

(** The call [order.<p>(k)]: it throws, or returns the port's promise. *)
Definition invoke (order : Order) (p : port) (k : option continuation)
  : M promise :=
  Run [Invoke p k]
      (match port_call order p with
       | Some e => Throw e
       | None => Ok (OfPort p)
       end).

(** A call of an [async] function: what it does before it returns, and the
    promise it returns.  An exception in the body rejects the promise; a
    returned promise is adopted. *)
Record task := Task { effects : list event; returned : promise }.

Definition async (body : M promise) : task :=
  Task (trace body)
       (match outcome body with
        | Ok p => p
        | Throw e => Settled (Throw e)
        end).

(** [handleError] *)
Definition handleError {A} (error : exn) (func : string) : M A :=
  _ ← emit (ConsoleError func error);
  throw (Error (exn_to_string error)).

(** [trackingUpdate] (with [order] for [options.model]); the trace and
    outcome of the awaited call. *)
Definition trackingUpdate (order : Order) (trackingId trackingStatus : value)
  : M value :=
  if negb (truthy trackingId) || negb (truthy trackingStatus)
  then throw (Error "trackingId or trackingStatus missing")
  else
    let done := VBool (strict_eq_str trackingStatus "orderDelivered") in
    updated ← order_update order
      {[ "trackingId" := trackingId; "trackingStatus" := trackingStatus ]};
    mret (VObj {[ "done" := done; "order" := updated ]}).

(** [orderShipped] *)
Definition orderShipped (order : Order) (shipmentId : value) : M value :=
  if negb (truthy shipmentId) then throw (Error "shipmentId missing")
  else order_update order
         {[ "shipmentId" := shipmentId;
            "orderStatus" := VStr OrderStatus.SHIPPING ]}.

(** The functions of [OrderActions], one for each status name. *)
Definition action_PENDING (order : Order) : task :=
  async (try_catch
           (a ← invoke order validateAddress (Some K_addressValidated);
            b ← invoke order authorizePayment (Some K_paymentAuthorized);
            mret (All [a; b]))
           (fun error => handleError error OrderStatus.PENDING)).

Definition action_APPROVED (order : Order) : task :=
  async (try_catch
           (_ ← invoke order pickOrder (Some K_orderPicked);
            mret resolved)
           (fun error => handleError error OrderStatus.APPROVED)).

Definition action_SHIPPING (order : Order) : task :=
  async (try_catch
           (_ ← invoke order trackShipment (Some K_trackingUpdate);
            mret resolved)
           (fun error => handleError error OrderStatus.SHIPPING)).

Definition action_CANCELED (order : Order) : task :=
  async (try_catch
           (_ ← invoke order compensate None;
            mret resolved)
           (fun error => handleError error OrderStatus.CANCELED)).

Definition action_COMPLETE (order : Order) : task :=
  async (_ ← emit (ConsoleLog "do customer sentiment etc");
         mret resolved).

(** [OrderActions] *)
Definition OrderActions : gmap string (Order -> task) :=
  {[ OrderStatus.PENDING := action_PENDING;
     OrderStatus.APPROVED := action_APPROVED;
     OrderStatus.SHIPPING := action_SHIPPING;
     OrderStatus.CANCELED := action_CANCELED;
     OrderStatus.COMPLETE := action_COMPLETE ]}.

(** [handleStatusChange]: [return OrderActions[order.orderStatus](order)].
    A status that names no action makes the call throw inside the [async]
    function.  (The names [Object.prototype] supplies, such as ["toString"],
    are not statuses and are not modelled.) *)
Definition handleStatusChange (order : Order) : task :=
  let action :=
    match field order "orderStatus" with
    | VStr name => OrderActions !! name
    | _ => None
    end in
  match action with
  | Some act => act order
  | None => async (throw (TypeError "OrderActions[order.orderStatus] is not a function"))
  end.

(** [handleOrderEvent] (with the three properties of its argument):
    [if (changes?.orderStatus || eventType === "CREATE") await handleStatusChange(order)] *)
Definition handleOrderEvent (order : Order) (eventType changes : value) : task :=
  match get_opt changes "orderStatus" with
  | Throw e => async (throw e)
  | Ok changed =>
      if truthy changed || strict_eq_str eventType "CREATE"
      then let t := handleStatusChange order in
           Task (effects t) (Awaited (returned t))
      else Task [] resolved
  end.

(** *** When promises settle *)

Inductive pstate :=
| Pending
| Fulfilled (v : value)
| Rejected (e : exn).

(** The results of the port calls that have arrived so far, oldest first. *)
Definition history := list (port * result value).

Definition port_eqb (p q : port) : bool :=
  match p, q with
  | validateAddress, validateAddress | authorizePayment, authorizePayment
  | pickOrder, pickOrder | trackShipment, trackShipment
  | compensate, compensate => true
  | _, _ => false
  end.

(** The state of a port's promise: its first result in the history. *)
Fixpoint port_state (h : history) (p : port) : pstate :=
  match h with
  | [] => Pending
  | (q, r) :: h' =>
      if port_eqb p q
      then match r with Ok v => Fulfilled v | Throw e => Rejected e end
      else port_state h' p
  end.

(** The histories up to each moment, from the start to now. *)
Fixpoint moments (h : history) : list history :=
  match h with
  | [] => [[]]
  | x :: h' => [] :: map (cons x) (moments h')
  end.

Definition first_rejection (states : list pstate) : option exn :=
  head (omap (fun s => match s with Rejected e => Some e | _ => None end) states).

Definition all_fulfilled (states : list pstate) : option (list value) :=
  mapM (fun s => match s with Fulfilled v => Some v | _ => None end) states.

(** The state of a promise once the results in [h] have arrived and the
    reactions they trigger have run.  [Promise.all] rejects with the reason
    of the input that rejected first in time, and otherwise fulfils with all
    the values once every input has fulfilled. *)
Fixpoint state (h : history) (p : promise) : pstate :=
  match p with
  | Settled (Ok v) => Fulfilled v
  | Settled (Throw e) => Rejected e
  | OfPort q => port_state h q
  | All ps =>
      match head (omap (fun h' => first_rejection (map (state h') ps)) (moments h)) with
      | Some e => Rejected e
      | None =>
          match all_fulfilled (map (state h) ps) with
          | Some vs => Fulfilled (VArr vs)
          | None => Pending
          end
      end
  | Awaited q =>
      match state h q with
      | Fulfilled _ => Fulfilled VUndefined
      | s => s
      end
  end.

(** ** order.js: the other guards, continuations and callbacks *)

(** [v === n] for a number [n]: no coercion, and the comparison of
    binary64 values ([NaN] equals nothing, [+0] equals [-0]). *)
Definition strict_eq_num (v : value) (n : float) : bool :=
  match v with VNum m => PrimFloat.eqb n m | _ => false end.

(** [freezeOnApproval] *)
Definition freezeOnApproval (propKey : string) (o : Order) : result value :=
  st ← get (PREVMODEL o) "orderStatus";
  mret (if negb (strict_eq_str st OrderStatus.PENDING)
        then VStr propKey else VNull).

(** [requiredForCompletion]:
    [if (!o.orderStatus) return; return o.orderStatus === COMPLETE ? propKey : void 0] *)
Definition requiredForCompletion (propKey : string) (o : Order) : value :=
  if negb (truthy (field o "orderStatus")) then VUndefined
  else if strict_eq_str (field o "orderStatus") OrderStatus.COMPLETE
       then VStr propKey else VUndefined.

(** [readyToDelete] *)
Definition readyToDelete (model : Order) : result Order :=
  if negb (includes [OrderStatus.COMPLETE; OrderStatus.CANCELED]
                    (field model "orderStatus"))
  then Throw (Error "order status incomplete")
  else mret model.

Section TotalGuards.
Variable StringToNumber : string -> float.
Variable ArrayToNumber : list value -> result float.

(** [orderTotalValid]: [calcTotal(o.orderItems) === propVal] *)
Definition orderTotalValid (o : Order) (propVal : value) : result bool :=
  total ← calcTotal StringToNumber ArrayToNumber (field o "orderItems");
  mret (strict_eq_num propVal total).

(** [recalcTotal] *)
Definition recalcTotal (o : Order) (propVal : value)
  : result (gmap string value) :=
  total ← calcTotal StringToNumber ArrayToNumber propVal;
  mret {[ "orderTotal" := VNum total ]}.
End TotalGuards.

(** [paymentCompleted] *)
Definition paymentCompleted (order : Order) : M value :=
  order_update order {[ "orderStatus" := VStr OrderStatus.COMPLETE ]}.

(** [deliveryVerified] *)
Definition deliveryVerified (order : Order) (proofOfDelivery : value) : M value :=
  if negb (truthy proofOfDelivery) then throw (Error "proofOfDelivery missing")
  else order_update order {[ "proofOfDelivery" := proofOfDelivery ]}.

(** [orderPicked] *)
Definition orderPicked (order : Order) (pickupAddress : value) : M value :=
  if negb (truthy pickupAddress) then throw (Error "pickupAddress is missing")
  else order_update order {[ "pickupAddress" := pickupAddress ]}.

(** [addressValidated] *)
Definition addressValidated (order : Order) (shippingAddress : value) : M value :=
  if negb (truthy shippingAddress) then throw (Error "shippingAddress is missing")
  else order_update order {[ "shippingAddress" := shippingAddress ]}.

(** [paymentAuthorized] *)
Definition paymentAuthorized (order : Order) (paymentAuthorization : value)
  : M value :=
  if negb (truthy paymentAuthorization)
  then throw (Error "paymentAuthorization is missing")
  else order_update order {[ "paymentAuthorization" := paymentAuthorization ]}.

(** [refundPayment] *)
Definition refundPayment (order : Order) (receipt : value) : M value :=
  if negb (truthy receipt) then throw (Error "receipt is missing")
  else order_update order {[ "receipt" := receipt ]}.

(** The functions an adapter can be handed (or told) to call back, and the
    call of one with the arguments it is given; an argument that is not
    passed is [undefined]. *)
Inductive callback :=
| cb_paymentCompleted | cb_deliveryVerified | cb_trackingUpdate
| cb_orderShipped | cb_orderPicked | cb_addressValidated
| cb_paymentAuthorized | cb_refundPayment.

Definition argument (args : list value) (n : nat) : value :=
  default VUndefined (args !! n).

Definition call_back (k : callback) (order : Order) (args : list value) : M value :=
  match k with
  | cb_paymentCompleted => paymentCompleted order
  | cb_deliveryVerified => deliveryVerified order (argument args 0)
  | cb_trackingUpdate => trackingUpdate order (argument args 0) (argument args 1)
  | cb_orderShipped => orderShipped order (argument args 0)
  | cb_orderPicked => orderPicked order (argument args 0)
  | cb_addressValidated => addressValidated order (argument args 0)
  | cb_paymentAuthorized => paymentAuthorized order (argument args 0)
  | cb_refundPayment => refundPayment order (argument args 0)
  end.

(** What [errorCallback] and [timeoutCallback] do: a line on the error
    console, with its arguments, and calls on the order. *)
Inductive notice :=
| ConsoleErrorLine (args : list value)
| Effect (ev : event).

(** [order.compensate()] as a statement: the call, and the exception if it
    throws. *)
Definition call_compensate (order : Order) : list notice * result unit :=
  ([Effect (Invoke compensate None)],
   match port_call order compensate with
   | Some e => Throw e
   | None => Ok ()
   end).

(** [errorCallback] *)
Definition errorCallback (port_name : value) (order : Order) (error : value)
  : list notice * result unit :=
  let '(calls, r) := call_compensate order in
  (ConsoleErrorLine [VStr "error..."; port_name; error] :: calls, r).

(** [timeoutCallback] *)
Definition timeoutCallback (port_name : value) (order : Order)
  : list notice * result unit :=
  let '(calls, r) := call_compensate order in
  (ConsoleErrorLine [VStr "timeout..."; port_name] :: calls, r).

(** The exported [compensate({ model })], an [async] function. *)
Definition compensate_model (model : Order) : task :=
  async (_ ← invoke model compensate None; mret resolved).

(** ** adapters/address-adapter.js *)

(** What becomes of a promise in the end. *)
Inductive settlement :=
| Resolves (v : value)
| Rejects (e : exn)
| NeverSettles.

Module AddressAdapter.

(** What the adapter is called with: the order [options.model], what its
    [decrypt()] returns or throws (the method is not part of the sources),
    and the callback [options.args[0]], [None] when it is not a function. *)
Record Options := {
  model : Order;
  decrypt : result value;
  callback : option (Order -> value -> M value);
}.

(** [validateAddress(service)(options)], with [service] for what awaiting
    [service.validateAddress(address)] gives.  The executor of the promise
    is an [async] function: an exception before its [try] rejects the
    executor's own promise, which nobody reads, and neither [resolve] nor
    [reject] is called. *)
Definition validateAddress (service : value -> result value) (options : Options)
  : list event * settlement :=
  match (decrypted ← decrypt options;
         address ← get decrypted "shippingAddress";
         service address) with
  | Throw _ => ([], NeverSettles)
  | Ok shippingAddress =>
      match callback options with
      | None => ([], Rejects (TypeError "callback is not a function"))
      | Some k =>
          let update := k (model options) shippingAddress in
          (trace update,
           match outcome update with
           | Ok updated => Resolves updated
           | Throw error => Rejects error
           end)
      end
  end.

End AddressAdapter.

(** ** The interface adapter (InterfaceAdapter) *)

Module InterfaceAdapter.
Section WithResult.
(** What an adapter returns. *)
Context {R : Type}.

(** A property of the adaptee: data, or a function made by
    [createFunctions]. *)
Inductive member :=
| Data (v : value)
| Method (f : unit -> R).

(** An adapter is called with a [this] ([None] for [undefined]) and the
    interface name. *)
Definition adapter := option (gmap string member) -> string -> R.

(** The object [InterfaceAdapter(adaptee)] returns, by the state its
    methods share: the adaptee and the map [adapters]. *)
Record t := { adaptee : gmap string member; adapters : gmap string adapter }.

(** [InterfaceAdapter(adaptee)] *)
Definition create (adaptee : gmap string member) : t :=
  {| adaptee := adaptee; adapters := ∅ |}.

(** [add(iface, adapter)]: [adapters.set(iface, adapter)] *)
Definition add (iface : string) (a : adapter) (ia : t) : t :=
  {| adaptee := adaptee ia; adapters := <[iface := a]> (adapters ia) |}.

(** [createFunctions()]:
    [adapters.forEach((adapter, iface) => adaptee[iface] = () => adapter(iface))] *)
Definition createFunctions (ia : t) : t :=
  {| adaptee :=
       map_imap (fun iface a => Some (Method (fun _ => a None iface))) (adapters ia)
       ∪ adaptee ia;
     adapters := adapters ia |}.

(** [invoke(iface)]: [adapters.get(iface).call(adaptee, iface)]; the error
    when there is no such adapter rejects the promise of the [async]
    method. *)
Definition invoke (iface : string) (ia : t) : result R :=
  match adapters ia !! iface with
  | Some a => Ok (a (Some (adaptee ia)) iface)
  | None => Throw (TypeError "cannot read property call of undefined")
  end.

(** The call [adaptee[iface]()]. *)
Definition call_member (iface : string) (ia : t) : result R :=
  match adaptee ia !! iface with
  | Some (Method f) => Ok (f ())
  | _ => Throw (TypeError "adaptee[iface] is not a function")
  end.
End WithResult.
Arguments member : clear implicits.
Arguments adapter : clear implicits.
Arguments t : clear implicits.
End InterfaceAdapter.

(** ** What the specification says, in its own terms *)

(** The five statuses, and the value each is stored as. *)
Inductive status := sPENDING | sAPPROVED | sSHIPPING | sCOMPLETE | sCANCELED.

Definition status_name (s : status) : string :=
  match s with
  | sPENDING => OrderStatus.PENDING
  | sAPPROVED => OrderStatus.APPROVED
  | sSHIPPING => OrderStatus.SHIPPING
  | sCOMPLETE => OrderStatus.COMPLETE
  | sCANCELED => OrderStatus.CANCELED
  end.

(** The allowed edges of section 4.1: PENDING to APPROVED to SHIPPING to
    COMPLETE, and any of PENDING, APPROVED, SHIPPING to CANCELED. *)
Definition allowed_edge (from to : status) : bool :=
  match from, to with
  | sPENDING, sAPPROVED | sAPPROVED, sSHIPPING | sSHIPPING, sCOMPLETE => true
  | (sPENDING | sAPPROVED | sSHIPPING), sCANCELED => true
  | _, _ => false
  end.

(** The explicitly forbidden edges of section 4.1. *)
Definition forbidden_edge (from to : status) : bool :=
  match from, to with
  | sAPPROVED, sPENDING | sSHIPPING, sPENDING | sSHIPPING, sAPPROVED
  | sPENDING, sSHIPPING | sPENDING, sCOMPLETE => true
  | _, _ => false
  end.

(** The order's previous snapshot holds the status [s]. *)
Definition previous_status (o : Order) (s : status) : Prop :=
  exists prev, PREVMODEL o = VObj prev
               /\ prev !! "orderStatus" = Some (VStr (status_name s)).

(** The order has no previous status: there is no snapshot, or the snapshot
    has no [orderStatus]. *)
Definition no_previous_status (o : Order) : Prop :=
  PREVMODEL o = VUndefined \/ PREVMODEL o = VNull
  \/ exists prev, PREVMODEL o = VObj prev /\ prev !! "orderStatus" = None.

(** An item that has an [itemId] and a numeric [price]. *)
Definition has_id_and_price (i : value) : Prop :=
  exists props id p,
    i = VObj props /\ props !! "itemId" = Some id /\ truthy id = true
    /\ props !! "price" = Some (VNum p).

Definition item_props (i : value) : gmap string value :=
  match i with VObj props => props | _ => ∅ end.

(** Its [qty], when it has one, is a number. *)
Definition numeric_qty (i : value) : Prop :=
  match item_props i !! "qty" with
  | Some (VNum _) | None => True
  | Some _ => False
  end.

(** An item of the data model: an [itemId], a numeric [price], an optional
    numeric [qty]. *)
Definition priced_item (i : value) : Prop :=
  has_id_and_price i /\ numeric_qty i.

Definition item_price (i : value) : float :=
  match item_props i !! "price" with Some (VNum p) => p | _ => nan end.

(** The quantity of an item as the specification words it: [qty], and 1 when
    the item has none. *)
Definition qty_when_present (i : value) : float :=
  match item_props i !! "qty" with Some (VNum q) => q | _ => 1%float end.

(** The quantity the source uses: [qty] when it is present and truthy, and 1
    when it is absent or falsy (0 and NaN, for a number). *)
Definition qty_or_one (i : value) : float :=
  match item_props i !! "qty" with
  | Some (VNum q) => if truthy (VNum q) then q else 1%float
  | _ => 1%float
  end.

(** The sum, from 0 and in list order, of price times quantity. *)
Definition sum_of (qty : value -> float) (items : list value) : float :=
  fold_left PrimFloat.add
    (map (fun i => item_price i * qty i)%float items) 0%float.

(** The claim on [calcTotal] as the specification words it. *)
Definition calcTotal_sums_price_times_qty : Prop :=
  forall S A (items : list value),
    items <> [] -> Forall priced_item items ->
    calcTotal S A (VArr items) = Ok (sum_of qty_when_present items).

(** The status among the changed fields of an update, and a creation event. *)
Definition status_among_changes (changes : value) : Prop :=
  exists m v, changes = VObj m /\ m !! "orderStatus" = Some v.

Definition is_creation (eventType : value) : Prop := eventType = VStr "CREATE".

(** Every [orderStatus] an update carries is one of the five statuses. *)
Definition changes_carry_statuses (changes : value) : Prop :=
  forall m v, changes = VObj m -> m !! "orderStatus" = Some v ->
              exists s, v = VStr (status_name s).

(** The caller of an [async] function does not wait for the adapters when
    the promise it is handed is settled before any result has arrived. *)
Definition settled_before_results (t : task) : Prop :=
  state [] (returned t) <> Pending.

(** The updates in a trace, the payload a callback requires, and the
    status it writes. *)
Definition updates (t : list event) : list (gmap string value) :=
  omap (fun ev => match ev with Update changes => Some changes | _ => None end) t.

Definition payload_present (k : callback) (args : list value) : bool :=
  match k with
  | cb_paymentCompleted => true
  | cb_trackingUpdate => truthy (argument args 0) && truthy (argument args 1)
  | _ => truthy (argument args 0)
  end.

Definition status_written (k : callback) : option value :=
  match k with
  | cb_orderShipped => Some (VStr OrderStatus.SHIPPING)
  | cb_paymentCompleted => Some (VStr OrderStatus.COMPLETE)
  | _ => None
  end.

(** The action of each status, and the call the actions other than
    PENDING and COMPLETE make. *)
Definition action_of (st : status) : Order -> task :=
  match st with
  | sPENDING => action_PENDING
  | sAPPROVED => action_APPROVED
  | sSHIPPING => action_SHIPPING
  | sCOMPLETE => action_COMPLETE
  | sCANCELED => action_CANCELED
  end.

Definition action_call (st : status) : option (port * option continuation) :=
  match st with
  | sAPPROVED => Some (pickOrder, Some K_orderPicked)
  | sSHIPPING => Some (trackShipment, Some K_trackingUpdate)
  | sCANCELED => Some (compensate, None)
  | sPENDING | sCOMPLETE => None
  end.

(** The calls of [order.compensate()] among what a callback did. *)
Definition is_compensation (n : notice) : bool :=
  match n with Effect (Invoke compensate None) => true | _ => false end.

Definition compensations (ns : list notice) : list notice :=
  List.filter is_compensation ns.

(** ** The guarded update path *)

(** The first of the proposed fields that [freezeOnCompletion] blocks: the
    guard is asked about each field in turn, and a field name in answer
    blocks that field. *)
Fixpoint first_frozen (o : Order) (keys : list string) : result (option string) :=
  match keys with
  | [] => Ok None
  | k :: keys' =>
      answer ← freezeOnCompletion k o;
      match answer with
      | VNull => first_frozen o keys'
      | _ => Ok (Some k)
      end
  end.

(** Modelled from the spec: the guarded update path of the model layer
    ([processUpdate] of ./mixins), which is not part of the sources.
    Section 4.2: guards run on every proposed update before it is committed;
    [freezeOnCompletion(field)] blocks edits of the field; a guard that
    blocks or throws aborts the whole update, which fails (section 7: a
    ValidationError, the order left unchanged) and is not committed.  Of the
    guards only [freezeOnCompletion] is run here, on every proposed field
    (invariant 4: no further field mutation is accepted); [commit] stands
    for the rest of the path. *)
Definition processUpdate (o : Order)
    (commit : gmap string value -> result value)
    (changes : gmap string value) : result value :=
  frozen ← first_frozen o (map fst (map_to_list changes));
  match frozen with
  | Some _ => Throw (Error "ValidationError")
  | None => commit changes
  end.

(** Modelled from the spec: the order whose [update] method goes through
    the guarded path before it does what the [update] of [o] does (the
    wiring of ./mixins is not part of the sources). *)
Definition with_guards (o : Order) : Order :=
  {| fields := fields o;
     PREVMODEL := PREVMODEL o;
     update := processUpdate o (update o);
     port_call := port_call o |}.

(** The previous status of the order is COMPLETE or CANCELED. *)
Definition previous_status_final (o : Order) : Prop :=
  exists prev,
    PREVMODEL o = VObj prev
    /\ (prev !! "orderStatus" = Some (VStr "COMPLETE")
        \/ prev !! "orderStatus" = Some (VStr "CANCELED")).

(** The claim on [freezeOnCompletion] as the specification words it: the
    field name exactly when the previous status is COMPLETE or CANCELED,
    and null otherwise. *)
Definition freezeOnCompletion_key_or_null : Prop :=
  forall propKey o,
    (previous_status_final o -> freezeOnCompletion propKey o = Ok (VStr propKey))
    /\ (~ previous_status_final o -> freezeOnCompletion propKey o = Ok VNull).

(** ** Concrete inputs *)

(** The conversions of strings and arrays to numbers, where an input needs
    them fixed (no input below converts a string or an array). *)
Definition no_StringToNumber : string -> float := fun _ => nan.
Definition no_ArrayToNumber : list value -> result float := fun _ => Ok nan.

(** The items of scenario 1, and an item with a quantity of 0. *)
Definition item_a : value :=
  VObj {[ "itemId" := VStr "a"; "price" := VNum 500%float; "qty" := VNum 1%float ]}.
Definition item_b : value :=
  VObj {[ "itemId" := VStr "b"; "price" := VNum 600%float; "qty" := VNum 1%float ]}.
Definition item_zero_qty : value :=
  VObj {[ "itemId" := VStr "a"; "price" := VNum 5%float; "qty" := VNum 0%float ]}.

(** A format check that accepts everything, and a [uuid] that returns
    ["order-1"]. *)
Definition accept_format : value -> string -> result unit := fun _ _ => Ok ().
Definition scenario_dependencies : Dependencies := {| uuid := Some (VStr "order-1") |}.

(** Orders for the guards: one with no snapshot, one whose snapshot has no
    status, and one for each previous status used below.  Their [update]
    returns the changes it is given and their ports return promises. *)
Definition order_with (fs : gmap string value) (prev : value) : Order :=
  {| fields := fs; PREVMODEL := prev;
     update := fun changes => Ok (VObj changes);
     port_call := fun _ => None |}.

Definition new_order : Order := order_with ∅ VUndefined.
Definition unsaved_order : Order := order_with ∅ (VObj ∅).
Definition approved_order : Order :=
  order_with {[ "orderStatus" := VStr "APPROVED" ]}
             (VObj {[ "orderStatus" := VStr "APPROVED" ]}).
Definition completed_order : Order :=
  order_with {[ "orderStatus" := VStr "COMPLETE" ]}
             (VObj {[ "orderStatus" := VStr "COMPLETE" ]}).

(** An order that already requires a signature. *)
Definition signed_order : Order :=
  order_with {[ "orderStatus" := VStr "PENDING";
                "signatureRequired" := VBool true ]}
             (VObj {[ "orderStatus" := VStr "PENDING" ]}).

(** Orders for the dispatcher. *)
Definition pending_order : Order :=
  order_with {[ "orderStatus" := VStr "PENDING" ]} VUndefined.
Definition shipping_order : Order :=
  order_with {[ "orderStatus" := VStr "SHIPPING" ]}
             (VObj {[ "orderStatus" := VStr "APPROVED" ]}).

(** An order that holds the items of scenario 1, and one whose only item
    has a price of NaN (which is a number). *)
Definition order_of_two_items : Order :=
  order_with {[ "orderStatus" := VStr "PENDING";
                "orderItems" := VArr [item_a; item_b] ]} VUndefined.
Definition item_nan : value :=
  VObj {[ "itemId" := VStr "n"; "price" := VNum nan ]}.
Definition order_of_nan_item : Order :=
  order_with {[ "orderStatus" := VStr "PENDING";
                "orderItems" := VArr [item_nan] ]} VUndefined.

(** Orders whose calls throw: an APPROVED one that has no [pickOrder], and a
    PENDING one whose address validation is down. *)
Definition order_without_pickOrder : Order :=
  {| fields := {[ "orderStatus" := VStr "APPROVED" ]};
     PREVMODEL := VObj {[ "orderStatus" := VStr "PENDING" ]};
     update := fun changes => Ok (VObj changes);
     port_call := fun p =>
       match p with
       | pickOrder => Some (TypeError "order.pickOrder is not a function")
       | _ => None
       end |}.
Definition order_address_down : Order :=
  {| fields := {[ "orderStatus" := VStr "PENDING" ]};
     PREVMODEL := VUndefined;
     update := fun changes => Ok (VObj changes);
     port_call := fun p =>
       match p with
       | validateAddress => Some (Error "address service down")
       | _ => None
       end |}.

(** The address adapter on a PENDING order, with a service that corrects the
    address and one that fails. *)
Definition address_options : AddressAdapter.Options :=
  {| AddressAdapter.model := pending_order;
     AddressAdapter.decrypt := Ok (VObj {[ "shippingAddress" := VStr "1 main st" ]});
     AddressAdapter.callback := Some addressValidated |}.
Definition correcting_service : value -> result value :=
  fun _ => Ok (VStr "1 Main Street").
Definition failing_service : value -> result value :=
  fun _ => Throw (Error "unreachable").

(** An interface adapter over an adaptee with one data property, and two
    adapters that tell whether they were given a [this]. *)
Definition plain_adaptee : gmap string (InterfaceAdapter.member value) :=
  {[ "name" := InterfaceAdapter.Data (VStr "order") ]}.
Definition telling_adapter (tag : string) : InterfaceAdapter.adapter value :=
  fun this iface =>
    VArr [VStr tag; VStr iface; VBool (bool_decide (is_Some this))].

(** ** Properties *)

(** *** Items and totals *)

Lemma strict_eq_str_true v s : strict_eq_str v s = true <-> v = VStr s.
Proof.
  destruct v; simpl; try (split; [discriminate | congruence]).
  rewrite String.eqb_eq. split; congruence.
Qed.

Lemma Ok_inj {A} (a b : A) : Ok a = Ok b -> a = b.
Proof. intros H. injection H as H. exact H. Qed.

Lemma VObj_inj (a b : gmap string value) : VObj a = VObj b -> a = b.
Proof. intros H. injection H as H. exact H. Qed.

Lemma float_neq (x y : float) : PrimFloat.eqb x y = false -> PrimFloat.eqb x x = true -> x <> y.
Proof. intros Hxy Hxx ->. congruence. Qed.

Lemma item_ok_priced i : has_id_and_price i -> item_ok i = Ok true.
Proof.
  intros (props & id & p & -> & Hid & Htruthy & Hprice).
  unfold item_ok. cbn. rewrite Hid. cbn. rewrite Htruthy, Hprice. reflexivity.
Qed.

Lemma every_priced items :
  Forall has_id_and_price items -> every item_ok items = Ok true.
Proof.
  induction 1 as [|i items Hi _ IH]; [reflexivity|].
  cbn. rewrite (item_ok_priced i Hi). exact IH.
Qed.

Lemma checkItems_list items :
  items <> [] -> Forall has_id_and_price items ->
  checkItems (VArr items) = Ok items.
Proof.
  intros Hne Hall. unfold checkItems. cbn.
  destruct items as [|i items]; [done|].
  change (0 <? length (i :: items))%nat with true. cbv iota.
  rewrite (every_priced _ Hall). reflexivity.
Qed.

Lemma checkItems_single item :
  has_id_and_price item -> checkItems item = Ok [item].
Proof.
  intros Hitem. pose proof (item_ok_priced item Hitem) as Hok.
  destruct Hitem as (props & id & p & -> & _).
  unfold checkItems. cbn -[item_ok]. rewrite Hok. reflexivity.
Qed.

Lemma priced_items_have_id_and_price items :
  Forall priced_item items -> Forall has_id_and_price items.
Proof. induction 1 as [|i items [Hi _] _ IH]; constructor; assumption. Qed.

Section TotalsFacts.
Variable StringToNumber : string -> float.
Variable ArrayToNumber : list value -> result float.

Lemma add_item_priced acc i :
  priced_item i ->
  add_item StringToNumber ArrayToNumber acc i
  = Ok (acc + item_price i * qty_or_one i)%float.
Proof.
  intros [(props & id & p & -> & _ & _ & Hprice) Hqty].
  unfold add_item, times, item_price, qty_or_one, or_else, numeric_qty in *.
  cbn in *. rewrite Hprice.
  destruct (props !! "qty") as [[| | b | q | s | m | l]|]; cbn; try done.
  destruct (negb (PrimFloat.eqb q 0) && PrimFloat.eqb q q); reflexivity.
Qed.

Lemma reduce_priced items :
  Forall priced_item items ->
  forall acc,
    reduce (add_item StringToNumber ArrayToNumber) items acc
    = Ok (fold_left PrimFloat.add
            (map (fun i => item_price i * qty_or_one i)%float items) acc).
Proof.
  induction 1 as [|i items Hi _ IH]; intros acc; [reflexivity|].
  cbn. rewrite (add_item_priced acc i Hi). cbn. apply IH.
Qed.

(** C2, as the code has it: on a non-empty list of items that each have
    an itemId, a numeric price and an optional numeric qty, [calcTotal]
    returns the sum, from 0 and in list order, of price times quantity, the
    quantity being 1 when [qty] is absent or falsy (0, NaN); the empty list
    is rejected with "order items invalid", and absent items ([undefined],
    [null]) with "order contains no items". *)
Theorem calcTotal_sum_qty_or_one :
  (forall items,
      items <> [] -> Forall priced_item items ->
      calcTotal StringToNumber ArrayToNumber (VArr items)
      = Ok (sum_of qty_or_one items))
  /\ calcTotal StringToNumber ArrayToNumber (VArr [])
     = Throw (Error "order items invalid")
  /\ calcTotal StringToNumber ArrayToNumber VUndefined
     = Throw (Error "order contains no items")
  /\ calcTotal StringToNumber ArrayToNumber VNull
     = Throw (Error "order contains no items").
Proof.
  split; [|repeat split].
  intros items Hne Hall. unfold calcTotal.
  rewrite (checkItems_list items Hne (priced_items_have_id_and_price _ Hall)).
  cbn. apply reduce_priced, Hall.
Qed.
End TotalsFacts.

Lemma item_a_priced : priced_item item_a.
Proof.
  split; [|exact I]. eexists _, (VStr "a"), 500%float. repeat split; reflexivity.
Qed.
Lemma item_b_priced : priced_item item_b.
Proof.
  split; [|exact I]. eexists _, (VStr "b"), 600%float. repeat split; reflexivity.
Qed.
Lemma item_zero_qty_priced : priced_item item_zero_qty.
Proof.
  split; [|exact I]. eexists _, (VStr "a"), 5%float. repeat split; reflexivity.
Qed.

Lemma calcTotal_sum_qty_or_one_witness :
  calcTotal no_StringToNumber no_ArrayToNumber (VArr [item_a; item_b])
  = Ok (sum_of qty_or_one [item_a; item_b]).
Proof.
  apply (calcTotal_sum_qty_or_one no_StringToNumber no_ArrayToNumber).
  - discriminate.
  - repeat constructor; [apply item_a_priced | apply item_b_priced].
Defined.

(** C2, counterexample: for the one-item list [{itemId:"a", price:5, qty:0}]
    [calcTotal] returns 5, not 5 times 0: a [qty] of 0 is present and is
    replaced by 1. *)
Lemma calcTotal_qty_zero_counts_as_one : ~ calcTotal_sums_price_times_qty.
Proof.
  intros H.
  specialize (H no_StringToNumber no_ArrayToNumber [item_zero_qty]).
  assert (Hv : calcTotal no_StringToNumber no_ArrayToNumber (VArr [item_zero_qty])
               = Ok 5%float) by (vm_compute; reflexivity).
  rewrite Hv in H.
  assert (Hs : sum_of qty_when_present [item_zero_qty] = 0%float)
    by (vm_compute; reflexivity).
  rewrite Hs in H.
  assert (H5 : Ok 5%float = Ok 0%float).
  { apply H; [discriminate | repeat constructor; apply item_zero_qty_priced]. }
  apply Ok_inj in H5. revert H5. apply float_neq; reflexivity.
Qed.

(** *** The factory *)

Lemma needSignature_undefined input total :
  is_boolean input = false -> needSignature input total = Ok VUndefined.
Proof. unfold needSignature. intros ->. reflexivity. Qed.

(** [needSignature] never answers: it returns [undefined] or throws. *)
Lemma needSignature_never_answers input total b :
  needSignature input total <> Ok (VBool b).
Proof. unfold needSignature. destruct (is_boolean input); discriminate. Qed.

Section FactoryFacts.
Variable StringToNumber : string -> float.
Variable ArrayToNumber : list value -> result float.
Variable checkFormat : value -> string -> result unit.

Lemma orderFactory_ok deps args orderItems total orderNo :
  param args "orderItems" VUndefined = orderItems ->
  calcTotal StringToNumber ArrayToNumber orderItems = Ok total ->
  checkFormat (param args "creditCardNumber" VNull) "creditCard" = Ok () ->
  is_boolean (param args "requireSignature" VUndefined) = false ->
  uuid deps = Some orderNo ->
  exists order,
    orderFactory StringToNumber ArrayToNumber checkFormat deps args = Ok (VObj order)
    /\ order !! "orderItems" = Some orderItems
    /\ order !! "orderTotal" = Some (VNum total)
    /\ order !! "signatureRequired" = Some VUndefined
    /\ order !! "orderStatus" = Some (VStr OrderStatus.PENDING)
    /\ order !! "orderNo" = Some orderNo.
Proof.
  intros Hitems Htotal Hformat Hbool Huuid.
  unfold orderFactory. rewrite Hitems, Htotal. cbn.
  rewrite Hformat. cbn.
  rewrite (needSignature_undefined _ _ Hbool). cbn.
  rewrite Huuid. cbn.
  eexists. split; [reflexivity|].
  repeat split; vm_compute; reflexivity.
Qed.

(** Whatever it is given, the factory never creates an order that requires
    a signature: the property is there and holds [undefined]. *)
Lemma orderFactory_signature_undefined deps args order :
  orderFactory StringToNumber ArrayToNumber checkFormat deps args = Ok (VObj order) ->
  order !! "signatureRequired" = Some VUndefined.
Proof.
  unfold orderFactory.
  destruct (calcTotal _ _ _) as [total|]; cbn; [|discriminate].
  destruct (checkFormat _ _); cbn; [|discriminate].
  unfold needSignature. destruct (is_boolean _); cbn; [discriminate|].
  destruct (uuid deps); cbn; [|discriminate].
  intros H. apply Ok_inj, VObj_inj in H. subst order. reflexivity.
Qed.

(** C1, what the code does on scenario 1: the order created from the items
    [{itemId:"a",price:500,qty:1}] and [{itemId:"b",price:600,qty:1}] has
    orderTotal 1100 and orderStatus PENDING, and its signatureRequired is
    [undefined], not [true]: [needSignature] computes the comparison with
    999.99 and returns nothing. *)
Theorem createOrder_scenario1_signature_undefined deps orderNo :
  checkFormat VNull "creditCard" = Ok () ->
  uuid deps = Some orderNo ->
  exists order,
    orderFactory StringToNumber ArrayToNumber checkFormat deps
      {[ "orderItems" := VArr [item_a; item_b] ]} = Ok (VObj order)
    /\ order !! "orderTotal" = Some (VNum 1100%float)
    /\ order !! "signatureRequired" = Some VUndefined
    /\ order !! "orderStatus" = Some (VStr "PENDING").
Proof.
  intros Hformat Huuid.
  destruct (orderFactory_ok deps {[ "orderItems" := VArr [item_a; item_b] ]}
              (VArr [item_a; item_b]) 1100%float orderNo)
    as (order & Hcreate & _ & Htotal & Hsig & Hstatus & _);
    [reflexivity | vm_compute; reflexivity | exact Hformat | reflexivity
    | exact Huuid |].
  exists order. auto.
Qed.

(** C10: a single item object that has an itemId and a numeric price is
    accepted in place of a list: [checkItems] returns the one-element list
    that holds it; and (its qty being a number when it has one) [calcTotal]
    is its price times its quantity, added to 0, and the factory creates the
    order from it, storing the bare object as [orderItems]. *)
Theorem checkItems_wraps_single_item (item : value) :
  has_id_and_price item ->
  checkItems item = Ok [item]
  /\ (numeric_qty item ->
      calcTotal StringToNumber ArrayToNumber item = Ok (sum_of qty_or_one [item])
      /\ forall deps args orderNo,
          args !! "orderItems" = Some item ->
          checkFormat (param args "creditCardNumber" VNull) "creditCard" = Ok () ->
          is_boolean (param args "requireSignature" VUndefined) = false ->
          uuid deps = Some orderNo ->
          exists order,
            orderFactory StringToNumber ArrayToNumber checkFormat deps args
            = Ok (VObj order)
            /\ order !! "orderItems" = Some item
            /\ order !! "orderTotal" = Some (VNum (sum_of qty_or_one [item]))).
Proof.
  intros Hitem.
  pose proof (checkItems_single item Hitem) as Hcheck.
  split; [exact Hcheck|]. intros Hqty.
  assert (Htotal : calcTotal StringToNumber ArrayToNumber item
                   = Ok (sum_of qty_or_one [item])).
  { unfold calcTotal. rewrite Hcheck. cbn.
    rewrite (add_item_priced _ _ _ _ (conj Hitem Hqty)). reflexivity. }
  split; [exact Htotal|].
  intros deps args orderNo Hargs Hformat Hbool Huuid.
  destruct (orderFactory_ok deps args item (sum_of qty_or_one [item]) orderNo)
    as (order & Hcreate & Hitems & Hsum & _);
    [| exact Htotal | exact Hformat | exact Hbool | exact Huuid |].
  - unfold param. rewrite Hargs.
    destruct Hitem as (props & _ & _ & -> & _). reflexivity.
  - exists order. auto.
Qed.
End FactoryFacts.

Lemma createOrder_scenario1_signature_undefined_witness :
  exists order,
    orderFactory no_StringToNumber no_ArrayToNumber accept_format
      scenario_dependencies {[ "orderItems" := VArr [item_a; item_b] ]}
    = Ok (VObj order)
    /\ order !! "orderTotal" = Some (VNum 1100%float)
    /\ order !! "signatureRequired" = Some VUndefined
    /\ order !! "orderStatus" = Some (VStr "PENDING").
Proof.
  apply (createOrder_scenario1_signature_undefined
           no_StringToNumber no_ArrayToNumber accept_format
           scenario_dependencies (VStr "order-1")); reflexivity.
Defined.

Lemma checkItems_wraps_single_item_witness :
  checkItems item_a = Ok [item_a]
  /\ calcTotal no_StringToNumber no_ArrayToNumber item_a
     = Ok (sum_of qty_or_one [item_a]).
Proof.
  destruct (checkItems_wraps_single_item
              no_StringToNumber no_ArrayToNumber accept_format item_a)
    as [Hcheck Hrest]; [apply item_a_priced|].
  split; [exact Hcheck|]. apply Hrest. exact I.
Defined.

(** *** Guards on the status *)

Lemma get_previous_status o s :
  previous_status o s ->
  get (PREVMODEL o) "orderStatus" = Ok (VStr (status_name s))
  /\ get_opt (PREVMODEL o) "orderStatus" = Ok (VStr (status_name s)).
Proof.
  intros (prev & Hprev & Hstatus). rewrite Hprev. cbn. rewrite Hstatus. done.
Qed.

Lemma truthy_status_name s : truthy (VStr (status_name s)) = true.
Proof. destruct s; reflexivity. Qed.

(** [invalidStatusChanges] holds exactly the forbidden edges. *)
Lemma some_invalidStatusChanges o from to :
  previous_status o from ->
  some (fun isc => isc o (VStr (status_name to))) invalidStatusChanges
  = Ok (forbidden_edge from to).
Proof.
  intros Hprev. destruct (get_previous_status o from Hprev) as [Hget _].
  unfold invalidStatusChanges, invalidStatusChange.
  destruct to; cbn; rewrite ?Hget; destruct from; reflexivity.
Qed.

Lemma allowed_not_forbidden from to :
  allowed_edge from to = true -> forbidden_edge from to = false.
Proof. destruct from, to; cbn; congruence. Qed.

(** C3, as the code has it: for an order with a previous status,
    [statusChangeValid] throws "invalid status change" exactly on the five
    forbidden edges (APPROVED to PENDING, SHIPPING to PENDING, SHIPPING to
    APPROVED, PENDING to SHIPPING, PENDING to COMPLETE) and returns true on
    every other proposal, the allowed edges among them. *)
Theorem statusChangeValid_rejects_forbidden_edges o from to :
  previous_status o from ->
  statusChangeValid o (VStr (status_name to))
  = (if forbidden_edge from to
     then Throw (Error "invalid status change") else Ok true)
  /\ (allowed_edge from to = true ->
      statusChangeValid o (VStr (status_name to)) = Ok true).
Proof.
  intros Hprev.
  assert (Heq : statusChangeValid o (VStr (status_name to))
                = (if forbidden_edge from to
                   then Throw (Error "invalid status change") else Ok true)).
  { destruct (get_previous_status o from Hprev) as [_ Hopt].
    unfold statusChangeValid. rewrite Hopt. cbn -[some truthy].
    rewrite truthy_status_name. cbn -[some].
    rewrite (some_invalidStatusChanges o from to Hprev). cbn.
    destruct (forbidden_edge from to); reflexivity. }
  split; [exact Heq|].
  intros Hallowed. rewrite Heq, (allowed_not_forbidden _ _ Hallowed). reflexivity.
Qed.

Lemma approved_order_previous_status : previous_status approved_order sAPPROVED.
Proof. eexists. split; reflexivity. Qed.

Lemma statusChangeValid_rejects_forbidden_edges_witness :
  statusChangeValid approved_order (VStr (status_name sPENDING))
  = Throw (Error "invalid status change").
Proof.
  apply (statusChangeValid_rejects_forbidden_edges approved_order sAPPROVED sPENDING).
  apply approved_order_previous_status.
Defined.

(** C3, counterexample: APPROVED to COMPLETE is not an allowed edge, and
    [statusChangeValid] accepts it for an order whose previous status is
    APPROVED. *)
Lemma statusChangeValid_accepts_approved_to_complete :
  previous_status approved_order sAPPROVED
  /\ allowed_edge sAPPROVED sCOMPLETE = false
  /\ statusChangeValid approved_order (VStr (status_name sCOMPLETE)) = Ok true.
Proof.
  split; [apply approved_order_previous_status|]. split; reflexivity.
Qed.

(** C4: on an order with no previous status (no snapshot, or a snapshot
    without orderStatus) [statusChangeValid] returns true, and so does not
    throw, whatever value is proposed. *)
Theorem statusChangeValid_first_write o propVal :
  no_previous_status o -> statusChangeValid o propVal = Ok true.
Proof.
  unfold statusChangeValid.
  intros [-> | [-> | (prev & -> & Hnone)]]; cbn; [done | done |].
  rewrite Hnone. reflexivity.
Qed.

Lemma statusChangeValid_first_write_witness :
  statusChangeValid new_order (VStr "COMPLETE") = Ok true
  /\ statusChangeValid unsaved_order (VStr "SHIPPING") = Ok true.
Proof.
  split.
  - apply (statusChangeValid_first_write new_order). left. reflexivity.
  - apply (statusChangeValid_first_write unsaved_order).
    right. right. eexists. split; reflexivity.
Defined.

(** What the guard returns on a snapshot: the field name when the
    snapshot's orderStatus is COMPLETE or CANCELED, and null for every other
    orderStatus (absent included). *)
Lemma freezeOnCompletion_on_snapshot propKey o prev :
  PREVMODEL o = VObj prev ->
  let st := default VUndefined (prev !! "orderStatus") in
  (st = VStr "COMPLETE" \/ st = VStr "CANCELED" ->
   freezeOnCompletion propKey o = Ok (VStr propKey))
  /\ (~ (st = VStr "COMPLETE" \/ st = VStr "CANCELED") ->
      freezeOnCompletion propKey o = Ok VNull).
Proof.
  intros Hprev st. unfold freezeOnCompletion. rewrite Hprev. cbn. fold st.
  destruct (strict_eq_str st OrderStatus.COMPLETE) eqn:Hc;
    [| destruct (strict_eq_str st OrderStatus.CANCELED) eqn:Hx ]; cbn.
  - split; [done|]. intros Hn. destruct Hn. left.
    apply strict_eq_str_true, Hc.
  - split; [done|]. intros Hn. destruct Hn. right.
    apply strict_eq_str_true, Hx.
  - split; [|done]. intros [H | H]; apply strict_eq_str_true in H.
    + unfold OrderStatus.COMPLETE in Hc. congruence.
    + unfold OrderStatus.CANCELED in Hx. congruence.
Qed.

(** With no previous snapshot at all the guard cannot read the status. *)
Lemma freezeOnCompletion_no_snapshot propKey o :
  PREVMODEL o = VUndefined ->
  freezeOnCompletion propKey o
  = Throw (TypeError "cannot read property orderStatus").
Proof. unfold freezeOnCompletion. intros ->. reflexivity. Qed.

(** *** The signature requirement *)

Lemma singleton_value_inj (k : string) (a b : value) :
  ({[ k := a ]} : gmap string value) = {[ k := b ]} -> a = b.
Proof.
  intros H. apply (f_equal (fun m => m !! k)) in H.
  rewrite !lookup_singleton_eq in H. congruence.
Qed.

Section SignatureFacts.
Variable StringToNumber : string -> float.
Variable ArrayToNumber : list value -> result float.

Lemma updateSignature_ok o propVal total :
  calcTotal StringToNumber ArrayToNumber propVal = Ok total ->
  updateSignature StringToNumber ArrayToNumber o propVal
  = Ok {[ "signatureRequired" :=
            if (999.99 <? total)%float then VBool true
            else field o "signatureRequired" ]}.
Proof.
  unfold updateSignature, or_else. intros ->. cbn.
  destruct (999.99 <? total)%float; reflexivity.
Qed.

Lemma updateSignature_throw o propVal e :
  calcTotal StringToNumber ArrayToNumber propVal = Throw e ->
  updateSignature StringToNumber ArrayToNumber o propVal = Throw e.
Proof. unfold updateSignature. intros ->. reflexivity. Qed.

(** C6: [updateSignature] is monotonic.  When the order's signatureRequired
    is already true, every new orderItems value whose total [calcTotal]
    computes, at or below 999.99 included, yields signatureRequired = true
    (and items that [calcTotal] rejects yield nothing: the same error is
    thrown).  When it is not already true, [updateSignature] yields true
    exactly when the recomputed total exceeds 999.99. *)
Theorem updateSignature_monotonic o propVal :
  (field o "signatureRequired" = VBool true ->
   (forall total,
       calcTotal StringToNumber ArrayToNumber propVal = Ok total ->
       updateSignature StringToNumber ArrayToNumber o propVal
       = Ok {[ "signatureRequired" := VBool true ]})
   /\ (forall e,
       calcTotal StringToNumber ArrayToNumber propVal = Throw e ->
       updateSignature StringToNumber ArrayToNumber o propVal = Throw e))
  /\ (field o "signatureRequired" <> VBool true ->
      (updateSignature StringToNumber ArrayToNumber o propVal
       = Ok {[ "signatureRequired" := VBool true ]}
       <-> exists total,
            calcTotal StringToNumber ArrayToNumber propVal = Ok total
            /\ (999.99 <? total)%float = true)).
Proof.
  split.
  - intros Hsig. split.
    + intros total Htotal. rewrite (updateSignature_ok o propVal total Htotal), Hsig.
      destruct (999.99 <? total)%float; reflexivity.
    + apply updateSignature_throw.
  - intros Hsig.
    destruct (calcTotal StringToNumber ArrayToNumber propVal) as [total|e] eqn:Htotal.
    + rewrite (updateSignature_ok o propVal total Htotal). split.
      * intros H. exists total. split; [reflexivity|].
        destruct (999.99 <? total)%float; [reflexivity|].
        apply Ok_inj, singleton_value_inj in H. contradiction.
      * intros (total' & Heq & Hgt). apply Ok_inj in Heq as <-.
        rewrite Hgt. reflexivity.
    + rewrite (updateSignature_throw o propVal e Htotal). split.
      * discriminate.
      * intros (total' & Heq & _). discriminate.
Qed.
End SignatureFacts.

Lemma updateSignature_monotonic_witness :
  updateSignature no_StringToNumber no_ArrayToNumber signed_order (VArr [item_zero_qty])
  = Ok {[ "signatureRequired" := VBool true ]}.
Proof.
  apply (updateSignature_monotonic no_StringToNumber no_ArrayToNumber
           signed_order (VArr [item_zero_qty])) with (total := 5%float).
  - reflexivity.
  - vm_compute. reflexivity.
Defined.

(** *** Continuations *)

(** C7: with a trackingId and a trackingStatus that are not empty,
    [trackingUpdate] applies one update, which writes trackingId and
    trackingStatus and nothing else (never orderStatus), and the result it
    returns once the update is applied has [done = true] exactly when
    trackingStatus is "orderDelivered"; when either is missing it throws
    "trackingId or trackingStatus missing" and applies no update. *)
Theorem trackingUpdate_writes_tracking_only order trackingId trackingStatus :
  (truthy trackingId = true -> truthy trackingStatus = true ->
   exists changes,
     trace (trackingUpdate order trackingId trackingStatus) = [Update changes]
     /\ dom changes = {[ "trackingId"; "trackingStatus" ]}
     /\ changes !! "trackingId" = Some trackingId
     /\ changes !! "trackingStatus" = Some trackingStatus
     /\ changes !! "orderStatus" = None
     /\ (forall e, update order changes = Throw e ->
                   outcome (trackingUpdate order trackingId trackingStatus) = Throw e)
     /\ (forall updated, update order changes = Ok updated ->
         exists done,
           outcome (trackingUpdate order trackingId trackingStatus)
           = Ok (VObj {[ "done" := VBool done; "order" := updated ]})
           /\ (done = true <-> trackingStatus = VStr "orderDelivered")))
  /\ (truthy trackingId = false \/ truthy trackingStatus = false ->
      trackingUpdate order trackingId trackingStatus
      = Run [] (Throw (Error "trackingId or trackingStatus missing"))).
Proof.
  unfold trackingUpdate. split.
  - intros -> ->. cbn [negb orb].
    unfold mbind, M_bind, order_update. cbn [trace outcome].
    exists {[ "trackingId" := trackingId; "trackingStatus" := trackingStatus ]}.
    split; [destruct (update order _); reflexivity|].
    split; [rewrite dom_insert_L, dom_singleton_L; reflexivity|].
    split; [reflexivity|]. split; [reflexivity|]. split; [reflexivity|].
    split.
    + intros e ->. reflexivity.
    + intros updated ->. eexists. split; [reflexivity|].
      apply strict_eq_str_true.
  - intros [-> | ->]; [reflexivity|].
    destruct (truthy trackingId); reflexivity.
Qed.

Lemma trackingUpdate_writes_tracking_only_witness :
  (exists changes,
      trace (trackingUpdate shipping_order (VStr "T1") (VStr "orderDelivered"))
      = [Update changes]
      /\ changes !! "orderStatus" = None)
  /\ trackingUpdate shipping_order VUndefined (VStr "orderDelivered")
     = Run [] (Throw (Error "trackingId or trackingStatus missing")).
Proof.
  split.
  - destruct (trackingUpdate_writes_tracking_only
                shipping_order (VStr "T1") (VStr "orderDelivered"))
      as [Hupdate _].
    destruct (Hupdate eq_refl eq_refl) as (changes & Htrace & _ & _ & _ & Hno & _).
    exists changes. split; [exact Htrace | exact Hno].
  - apply (trackingUpdate_writes_tracking_only
             shipping_order VUndefined (VStr "orderDelivered")).
    left. reflexivity.
Defined.

(** [orderShipped], by contrast, does write the status. *)
Example orderShipped_writes_status :
  trace (orderShipped approved_order (VStr "S1"))
  = [Update {[ "shipmentId" := VStr "S1"; "orderStatus" := VStr "SHIPPING" ]}].
Proof. reflexivity. Qed.

(** Scenario 5 on a concrete order: the delivered update is reported as done
    and carries no orderStatus. *)
Example trackingUpdate_delivered :
  trackingUpdate shipping_order (VStr "T1") (VStr "orderDelivered")
  = Run [Update {[ "trackingId" := VStr "T1";
                   "trackingStatus" := VStr "orderDelivered" ]}]
        (Ok (VObj {[ "done" := VBool true;
                     "order" := VObj {[ "trackingId" := VStr "T1";
                                        "trackingStatus" := VStr "orderDelivered" ]} ]})).
Proof. vm_compute. reflexivity. Qed.

(** *** The dispatcher *)

(** Every status has an action, and every action does something its caller
    can see: a port call or a log line. *)
Lemma OrderActions_total st order :
  exists act, OrderActions !! status_name st = Some act
              /\ effects (act order) <> [].
Proof.
  destruct st; (eexists; split; [reflexivity|]);
    cbn; unfold try_catch; cbn;
    repeat match goal with
           | |- context [port_call order ?p] => destruct (port_call order p)
           end; cbn; discriminate.
Qed.

Lemma handleStatusChange_action order st act :
  field order "orderStatus" = VStr (status_name st) ->
  OrderActions !! status_name st = Some act ->
  handleStatusChange order = act order.
Proof. unfold handleStatusChange. intros -> ->. reflexivity. Qed.

(** The test [changes?.orderStatus || eventType === "CREATE"]. *)
Lemma status_test changes eventType :
  changes_carry_statuses changes ->
  exists changed,
    get_opt changes "orderStatus" = Ok changed
    /\ (truthy changed || strict_eq_str eventType "CREATE" = true
        <-> status_among_changes changes \/ is_creation eventType).
Proof.
  intros Hcarry. unfold status_among_changes, is_creation.
  assert (Hno : forall c,
             (forall m v, changes = VObj m -> m !! "orderStatus" = Some v -> False) ->
             truthy c = false ->
             (truthy c || strict_eq_str eventType "CREATE" = true
              <-> (exists m v, changes = VObj m /\ m !! "orderStatus" = Some v)
                  \/ eventType = VStr "CREATE")).
  { intros c Habsent ->. cbn. rewrite strict_eq_str_true. split; [auto|].
    intros [(m & v & Hm & Hv) | H]; [destruct (Habsent m v Hm Hv) | exact H]. }
  destruct changes as [| | b | n | s | m | l];
    try (exists VUndefined; split; [reflexivity|]; apply Hno; [discriminate|reflexivity]).
  cbn. destruct (m !! "orderStatus") as [v|] eqn:Hv; cbn.
  - exists v. split; [reflexivity|].
    destruct (Hcarry m v eq_refl Hv) as [s ->]. rewrite truthy_status_name.
    split; [|reflexivity]. intros _. left. eauto.
  - exists VUndefined. split; [reflexivity|]. apply Hno; [|reflexivity].
    intros m' v' Hm'. injection Hm' as <-. congruence.
Qed.

(** C8: for an order in one of the five statuses and an update whose
    orderStatus, when it has one, is a status, [handleOrderEvent] runs the
    action of the order's current status (and awaits it) when orderStatus is
    among the changed fields or the event is a creation, and otherwise does
    nothing at all; as every action has an effect, the action has run if
    and only if one of the two holds. *)
Theorem handleOrderEvent_runs_action_iff order eventType changes st :
  field order "orderStatus" = VStr (status_name st) ->
  changes_carry_statuses changes ->
  exists act,
    OrderActions !! status_name st = Some act
    /\ (status_among_changes changes \/ is_creation eventType ->
        handleOrderEvent order eventType changes
        = Task (effects (act order)) (Awaited (returned (act order))))
    /\ (~ (status_among_changes changes \/ is_creation eventType) ->
        handleOrderEvent order eventType changes = Task [] resolved)
    /\ (effects (handleOrderEvent order eventType changes) <> []
        <-> status_among_changes changes \/ is_creation eventType).
Proof.
  intros Hstatus Hcarry.
  destruct (OrderActions_total st order) as (act & Hact & Heffects).
  destruct (status_test changes eventType Hcarry) as (changed & Hget & Htest).
  pose proof (handleStatusChange_action order st act Hstatus Hact) as Hrun.
  exists act. split; [exact Hact|].
  unfold handleOrderEvent. rewrite Hget, Hrun.
  destruct (truthy changed || strict_eq_str eventType "CREATE").
  - assert (Hyes : status_among_changes changes \/ is_creation eventType)
      by (apply Htest; reflexivity).
    split; [reflexivity|]. split; [intros Hn; destruct (Hn Hyes)|].
    cbn. split; [auto | intros _; exact Heffects].
  - assert (Hnot : ~ (status_among_changes changes \/ is_creation eventType))
      by (intros H; apply Htest in H; discriminate).
    split; [intros H; destruct (Hnot H)|]. split; [reflexivity|].
    cbn. split; [congruence | intros H; destruct (Hnot H)].
Qed.

Lemma handleOrderEvent_runs_action_iff_witness :
  handleOrderEvent shipping_order (VStr "UPDATE")
    (VObj {[ "trackingId" := VStr "T1" ]})
  = Task [] resolved.
Proof.
  destruct (handleOrderEvent_runs_action_iff shipping_order (VStr "UPDATE")
              (VObj {[ "trackingId" := VStr "T1" ]}) sSHIPPING)
    as (act & _ & _ & Hidle & _).
  - reflexivity.
  - intros m v Hm Hv. injection Hm as <-. discriminate.
  - apply Hidle. intros [(m & v & Hm & Hv) | H].
    + injection Hm as <-. discriminate.
    + discriminate.
Defined.

(** A status-changing update and a creation both run the action: the
    SHIPPING action restarts tracking, the PENDING action issues its two
    calls. *)
Example handleOrderEvent_shipping :
  effects (handleOrderEvent shipping_order (VStr "UPDATE")
             (VObj {[ "orderStatus" := VStr "SHIPPING" ]}))
  = [Invoke trackShipment (Some K_trackingUpdate)].
Proof. vm_compute. reflexivity. Qed.

Example handleOrderEvent_create :
  effects (handleOrderEvent pending_order (VStr "CREATE") VUndefined)
  = [Invoke validateAddress (Some K_addressValidated);
     Invoke authorizePayment (Some K_paymentAuthorized)].
Proof. vm_compute. reflexivity. Qed.

(** *** The PENDING action and its two calls *)

Lemma moments_prefix (h h' : history) : h' ∈ moments h <-> h' `prefix_of` h.
Proof.
  revert h'. induction h as [|x h IH]; intros h'; cbn.
  - rewrite list_elem_of_singleton. split.
    + intros ->. done.
    + intros Hp. apply prefix_nil_inv in Hp. exact Hp.
  - rewrite elem_of_cons, list_elem_of_fmap. split.
    + intros [-> | (k & -> & Hk)]; [apply prefix_nil|].
      apply prefix_cons, IH, Hk.
    + destruct h' as [|y h']; [auto|]. intros Hp. right.
      pose proof (prefix_cons_inv_1 _ _ _ _ Hp) as ->.
      exists h'. split; [reflexivity|]. apply IH.
      exact (prefix_cons_inv_2 _ _ _ _ Hp).
Qed.

(** A port's promise settles once: later results do not change it. *)
Lemma port_state_settled (h k : history) p :
  port_state h p <> Pending -> port_state (h ++ k)%list p = port_state h p.
Proof.
  induction h as [|[q r] h IH]; cbn; [done|].
  destruct (port_eqb p q); [reflexivity | exact IH].
Qed.

Lemma head_omap_None {A B} (f : A -> option B) (l : list A) :
  head (omap f l) = None <-> forall x, x ∈ l -> f x = None.
Proof.
  induction l as [|a l IH]; cbn.
  - split; [|done]. intros _ x Hx. inversion Hx.
  - destruct (f a) as [b|] eqn:Hfa; cbn.
    + split; [discriminate|]. intros H. rewrite <- Hfa. apply H. left.
    + rewrite IH. split.
      * intros H x Hx. apply elem_of_cons in Hx as [-> | Hx]; auto.
      * intros H x Hx. apply H. right. exact Hx.
Qed.

(** Scanning the moments for a rejection finds one exactly when one of
    the two ports has rejected by now. *)
Lemma rejection_scan (h : history) p q :
  head (omap (fun h' => first_rejection [port_state h' p; port_state h' q])
             (moments h)) = None
  <-> (forall e, port_state h p <> Rejected e)
      /\ (forall e, port_state h q <> Rejected e).
Proof.
  rewrite head_omap_None. unfold first_rejection. split.
  - intros H.
    assert (Hin : h ∈ moments h) by (apply moments_prefix; done).
    specialize (H h Hin). cbn in H.
    destruct (port_state h p), (port_state h q); cbn in H;
      split; intros e'; congruence.
  - intros [Hp Hq] h' Hh'. apply moments_prefix in Hh' as [k ->]. cbn.
    destruct (port_state h' p) as [|a|e] eqn:Hp'; cbn.
    + destruct (port_state h' q) as [|b|e] eqn:Hq'; cbn; try reflexivity.
      destruct (Hq e). rewrite port_state_settled; [exact Hq'|].
      rewrite Hq'. discriminate.
    + destruct (port_state h' q) as [|b|e] eqn:Hq'; cbn; try reflexivity.
      destruct (Hq e). rewrite port_state_settled; [exact Hq'|].
      rewrite Hq'. discriminate.
    + destruct (Hp e). rewrite port_state_settled; [exact Hp'|].
      rewrite Hp'. discriminate.
Qed.

(** [Promise.all] of the promises of two ports. *)
Lemma state_all_two (h : history) p q :
  state h (All [OfPort p; OfPort q])
  = match head (omap (fun h' => first_rejection [port_state h' p; port_state h' q])
                     (moments h)) with
    | Some e => Rejected e
    | None =>
        match port_state h p, port_state h q with
        | Fulfilled a, Fulfilled b => Fulfilled (VArr [a; b])
        | _, _ => Pending
        end
    end.
Proof.
  cbn [state map].
  destruct (head (omap _ (moments h))); [reflexivity|].
  unfold all_fulfilled.
  destruct (port_state h p), (port_state h q); reflexivity.
Qed.

(** The join of two port calls is pending exactly while neither has
    rejected and one of them has not settled. *)
Lemma state_all_two_pending (h : history) p q :
  state h (All [OfPort p; OfPort q]) = Pending
  <-> (port_state h p = Pending \/ port_state h q = Pending)
      /\ (forall e, port_state h p <> Rejected e)
      /\ (forall e, port_state h q <> Rejected e).
Proof.
  rewrite state_all_two.
  destruct (head (omap _ (moments h))) as [e|] eqn:Hscan.
  - split; [discriminate|]. intros [_ Hrej].
    apply rejection_scan in Hrej. congruence.
  - apply rejection_scan in Hscan as [Hp Hq].
    destruct (port_state h p) as [|a|e]; [| |destruct (Hp e eq_refl)];
      (destruct (port_state h q) as [|b|e]; [| |destruct (Hq e eq_refl)]);
      split; auto; try discriminate; intros [[H | H] _]; discriminate.
Qed.

Lemma state_all_two_fulfilled (h : history) p q a b :
  port_state h p = Fulfilled a -> port_state h q = Fulfilled b ->
  state h (All [OfPort p; OfPort q]) = Fulfilled (VArr [a; b]).
Proof.
  intros Hp Hq. rewrite state_all_two.
  destruct (head (omap _ (moments h))) as [e|] eqn:Hscan.
  - assert (Hnone : head (omap (fun h' => first_rejection
                                  [port_state h' p; port_state h' q])
                            (moments h)) = None).
    { apply rejection_scan. rewrite Hp, Hq. split; discriminate. }
    congruence.
  - rewrite Hp, Hq. reflexivity.
Qed.

(** An [async] function that awaits a promise is pending as long as it. *)
Lemma state_awaited_pending (h : history) p :
  state h (Awaited p) = Pending <-> state h p = Pending.
Proof.
  change (state h (Awaited p))
    with (match state h p with Fulfilled _ => Fulfilled VUndefined | s => s end).
  destruct (state h p); split; congruence.
Qed.

Lemma action_PENDING_calls order :
  port_call order validateAddress = None ->
  port_call order authorizePayment = None ->
  action_PENDING order
  = Task [Invoke validateAddress (Some K_addressValidated);
          Invoke authorizePayment (Some K_paymentAuthorized)]
         (All [OfPort validateAddress; OfPort authorizePayment]).
Proof.
  intros Hva Hap.
  unfold action_PENDING, async, try_catch, invoke, mbind, M_bind. cbn.
  rewrite Hva. cbn. rewrite Hap. reflexivity.
Qed.

Lemma handleOrderEvent_on_create order changes st act :
  field order "orderStatus" = VStr (status_name st) ->
  OrderActions !! status_name st = Some act ->
  handleOrderEvent order (VStr "CREATE") changes
  = Task (effects (act order)) (Awaited (returned (act order))).
Proof.
  intros Hstatus Hact. unfold handleOrderEvent.
  rewrite (handleStatusChange_action order st act Hstatus Hact).
  destruct changes as [| | b | n | s | m | l]; cbn; try reflexivity.
  destruct (truthy (default VUndefined (m !! "orderStatus"))); reflexivity.
Qed.

(** C9, as the code has it: when neither call throws, the PENDING action
    issues the address-validation call and then the payment-authorization
    call, each with its own continuation and the second without waiting for
    the first, and returns the join ([Promise.all]) of the two: the promise
    its caller gets is pending until both calls have fulfilled or one has
    rejected, and [handleOrderEvent], which awaits it on creation, is
    pending as long. *)
Theorem pending_action_joins_its_calls order :
  port_call order validateAddress = None ->
  port_call order authorizePayment = None ->
  OrderActions !! OrderStatus.PENDING = Some action_PENDING
  /\ effects (action_PENDING order)
     = [Invoke validateAddress (Some K_addressValidated);
        Invoke authorizePayment (Some K_paymentAuthorized)]
  /\ returned (action_PENDING order)
     = All [OfPort validateAddress; OfPort authorizePayment]
  /\ (forall h,
       state h (returned (action_PENDING order)) = Pending
       <-> (port_state h validateAddress = Pending
            \/ port_state h authorizePayment = Pending)
           /\ (forall e, port_state h validateAddress <> Rejected e)
           /\ (forall e, port_state h authorizePayment <> Rejected e))
  /\ (forall h a b,
       port_state h validateAddress = Fulfilled a ->
       port_state h authorizePayment = Fulfilled b ->
       state h (returned (action_PENDING order)) = Fulfilled (VArr [a; b]))
  /\ (field order "orderStatus" = VStr OrderStatus.PENDING ->
      forall changes h,
        effects (handleOrderEvent order (VStr "CREATE") changes)
        = effects (action_PENDING order)
        /\ (state h (returned (handleOrderEvent order (VStr "CREATE") changes))
            = Pending
            <-> state h (returned (action_PENDING order)) = Pending)).
Proof.
  intros Hva Hap. split; [reflexivity|].
  rewrite (action_PENDING_calls order Hva Hap). cbn [effects returned].
  split; [reflexivity|]. split; [reflexivity|].
  split; [intros h; apply state_all_two_pending|].
  split; [intros h a b; apply state_all_two_fulfilled|].
  intros Hstatus changes h.
  rewrite (handleOrderEvent_on_create order changes sPENDING action_PENDING Hstatus eq_refl).
  rewrite (action_PENDING_calls order Hva Hap). cbn [effects returned].
  split; [reflexivity|]. apply state_awaited_pending.
Qed.

Lemma pending_action_joins_its_calls_witness :
  effects (action_PENDING pending_order)
  = [Invoke validateAddress (Some K_addressValidated);
     Invoke authorizePayment (Some K_paymentAuthorized)]
  /\ state [(authorizePayment, Ok (VStr "auth-1"))]
           (returned (action_PENDING pending_order))
     = Pending
  /\ state [(authorizePayment, Ok (VStr "auth-1"));
            (validateAddress, Ok (VStr "1 Main St"))]
           (returned (action_PENDING pending_order))
     = Fulfilled (VArr [VStr "1 Main St"; VStr "auth-1"]).
Proof.
  destruct (pending_action_joins_its_calls pending_order eq_refl eq_refl)
    as (_ & Heffects & _ & Hpending & Hfulfilled & _).
  split; [exact Heffects|]. split.
  - apply Hpending. split; [left; reflexivity|]. split; intros e; discriminate.
  - apply Hfulfilled; reflexivity.
Defined.

(** When both calls fail, the join rejects with the failure that came
    first. *)
Example pending_action_first_rejection :
  state [(authorizePayment, Throw (Error "declined"));
         (validateAddress, Throw (Error "no such address"))]
        (returned (action_PENDING pending_order))
  = Rejected (Error "declined").
Proof. vm_compute. reflexivity. Qed.

(** C9, counterexample: for a PENDING order whose calls return their
    promises, the promise the action returns, and the one [handleOrderEvent]
    returns for the creation event, are still pending when no result has
    arrived: the caller that awaits the action waits for the adapters. *)
Lemma pending_action_is_awaited :
  OrderActions !! OrderStatus.PENDING = Some action_PENDING
  /\ ~ settled_before_results (action_PENDING pending_order)
  /\ ~ settled_before_results
         (handleOrderEvent pending_order (VStr "CREATE") VUndefined).
Proof.
  split; [reflexivity|].
  unfold settled_before_results. split; intros H; apply H; vm_compute; reflexivity.
Qed.

(** The other actions do return before any result: the APPROVED action
    issues its call and hands its caller a settled promise. *)
Lemma approved_action_is_not_awaited :
  OrderActions !! OrderStatus.APPROVED = Some action_APPROVED
  /\ effects (action_APPROVED approved_order) = [Invoke pickOrder (Some K_orderPicked)]
  /\ settled_before_results (action_APPROVED approved_order)
  /\ settled_before_results
       (handleOrderEvent approved_order (VStr "UPDATE")
          (VObj {[ "orderStatus" := VStr "APPROVED" ]})).
Proof.
  split; [reflexivity|]. split; [vm_compute; reflexivity|].
  unfold settled_before_results. split; vm_compute; discriminate.
Qed.

(** ** Further properties of the code *)

(** *** Items and totals, continued *)

Lemma item_ok_true i : item_ok i = Ok true -> has_id_and_price i.
Proof.
  destruct i as [| | b | n | s | props | l]; try discriminate.
  unfold item_ok. cbn.
  destruct (props !! "itemId") as [id|] eqn:Hid; cbn; [|discriminate].
  destruct (truthy id) eqn:Htruthy; cbn; [|discriminate].
  destruct (props !! "price") as [[| | b | p | s | m | l]|] eqn:Hprice;
    cbn; try discriminate.
  intros _. exists props, id, p. done.
Qed.

Lemma every_true items :
  every item_ok items = Ok true -> Forall has_id_and_price items.
Proof.
  induction items as [|i items IH]; [constructor|]. cbn.
  destruct (item_ok i) as [[|]|] eqn:Hi; cbn; try discriminate.
  intros H. constructor; [apply item_ok_true, Hi | apply IH, H].
Qed.

Lemma checkItems_Ok v l :
  checkItems v = Ok l ->
  l <> [] /\ Forall has_id_and_price l /\ (v = VArr l \/ l = [v]).
Proof.
  unfold checkItems. destruct (truthy v); cbn -[every]; [|discriminate].
  set (items := match v with VArr l' => l' | _ => [v] end).
  assert (Hshape : v = VArr items \/ items = [v])
    by (destruct v; cbn; auto).
  destruct items as [|i items]; [discriminate|].
  change (0 <? length (i :: items))%nat with true. cbv iota.
  destruct (every item_ok (i :: items)) as [[|]|] eqn:Hevery;
    cbn; try discriminate.
  intros H. apply Ok_inj in H. subst l.
  split; [discriminate|]. split; [apply every_true, Hevery | exact Hshape].
Qed.

(** X1: [checkItems] returns a list exactly when that list is not empty,
    each of its items has an itemId and a numeric price, and it is the
    array it was given or holds the single value it was given; whatever it
    returns is therefore a checked, non-empty list. *)
Theorem checkItems_returns_checked_items v l :
  checkItems v = Ok l
  <-> l <> [] /\ Forall has_id_and_price l /\ (v = VArr l \/ l = [v]).
Proof.
  split; [apply checkItems_Ok|].
  intros (Hne & Hall & [-> | ->]).
  - apply checkItems_list; assumption.
  - apply checkItems_single. inversion Hall; assumption.
Qed.

(** A number that does not equal itself (NaN) equals no number. *)
Lemma nan_equals_nothing (x y : float) :
  PrimFloat.eqb x x = false -> PrimFloat.eqb x y = false.
Proof.
  rewrite !FloatAxioms.eqb_spec. unfold SFeqb.
  destruct (Prim2SF x) as [sx | sx | | sx mx ex]; cbn.
  - discriminate.
  - destruct sx; discriminate.
  - reflexivity.
  - destruct sx; rewrite Z.compare_refl, Pos.compare_cont_refl; discriminate.
Qed.

Section TotalsMore.
Variable StringToNumber : string -> float.
Variable ArrayToNumber : list value -> result float.

(** X2: what [checkItems] returns is in normal form: checking the returned
    list again returns it unchanged, and [calcTotal] of the original value
    (a list or a bare item) is [calcTotal] of the returned list. *)
Theorem checkItems_idempotent v l :
  checkItems v = Ok l ->
  checkItems (VArr l) = Ok l
  /\ calcTotal StringToNumber ArrayToNumber v
     = calcTotal StringToNumber ArrayToNumber (VArr l).
Proof.
  intros Hv. destruct (checkItems_Ok v l Hv) as (Hne & Hall & _).
  pose proof (checkItems_list l Hne Hall) as Hl.
  split; [exact Hl|]. unfold calcTotal. rewrite Hv, Hl. reflexivity.
Qed.

(** X3: adding one item at the end of a list of items adds its price times
    its quantity to the total; the additions being made from left to right,
    this holds exactly, rounding included. *)
Theorem calcTotal_append_item items i total :
  Forall priced_item items -> priced_item i ->
  calcTotal StringToNumber ArrayToNumber (VArr items) = Ok total ->
  calcTotal StringToNumber ArrayToNumber (VArr (items ++ [i])%list)
  = Ok (total + item_price i * qty_or_one i)%float.
Proof.
  intros Hitems Hi Htotal.
  assert (Hne : items <> []).
  { intros ->. discriminate. }
  assert (Hall : Forall priced_item (items ++ [i])%list)
    by (apply Forall_app; split; [exact Hitems | constructor; [exact Hi | constructor]]).
  unfold calcTotal in *.
  rewrite (checkItems_list items Hne (priced_items_have_id_and_price _ Hitems))
    in Htotal.
  rewrite checkItems_list;
    [| intros H; apply app_eq_nil in H as [_ H]; discriminate
     | apply priced_items_have_id_and_price, Hall].
  cbn in *.
  rewrite (reduce_priced StringToNumber ArrayToNumber _ Hitems) in Htotal.
  rewrite (reduce_priced StringToNumber ArrayToNumber _ Hall).
  apply Ok_inj in Htotal. rewrite map_app, fold_left_app, Htotal. reflexivity.
Qed.

Lemma orderTotalValid_number o total proposed :
  calcTotal StringToNumber ArrayToNumber (field o "orderItems") = Ok total ->
  orderTotalValid StringToNumber ArrayToNumber o proposed
  = Ok (strict_eq_num proposed total).
Proof. unfold orderTotalValid. intros ->. reflexivity. Qed.

(** X4: the total [recalcTotal] computes for an order's items passes
    [orderTotalValid] on that order unless it is NaN, which equals nothing:
    an order whose items total NaN has no valid total at all.  A proposed
    total that is not a number is never valid. *)
Theorem recalcTotal_passes_orderTotalValid o total :
  calcTotal StringToNumber ArrayToNumber (field o "orderItems") = Ok total ->
  recalcTotal StringToNumber ArrayToNumber o (field o "orderItems")
  = Ok {[ "orderTotal" := VNum total ]}
  /\ orderTotalValid StringToNumber ArrayToNumber o (VNum total)
     = Ok (PrimFloat.eqb total total)
  /\ (PrimFloat.eqb total total = false ->
      forall proposed,
        orderTotalValid StringToNumber ArrayToNumber o proposed = Ok false)
  /\ (forall proposed,
        is_number proposed = false ->
        orderTotalValid StringToNumber ArrayToNumber o proposed = Ok false).
Proof.
  intros Htotal. split; [unfold recalcTotal; rewrite Htotal; reflexivity|].
  split; [rewrite (orderTotalValid_number o total _ Htotal); reflexivity|].
  split.
  - intros Hnan proposed. rewrite (orderTotalValid_number o total _ Htotal).
    f_equal. destruct proposed; try reflexivity. cbn.
    apply nan_equals_nothing, Hnan.
  - intros proposed Hnum. rewrite (orderTotalValid_number o total _ Htotal).
    destruct proposed; try reflexivity. discriminate.
Qed.
End TotalsMore.

(** *** Guards, continued *)

Lemma strict_eq_str_false v s : strict_eq_str v s = false <-> v <> VStr s.
Proof.
  rewrite <- strict_eq_str_true. destruct (strict_eq_str v s); split; congruence.
Qed.

(** X5: for an order with a previous snapshot, [freezeOnApproval(field)]
    returns null exactly when the snapshot's orderStatus is PENDING and the
    field name for every other orderStatus; a snapshot that has no
    orderStatus is therefore frozen, although [statusChangeValid] treats it
    as a first write and lets every status through. *)
Theorem freezeOnApproval_frozen_unless_pending propKey o prev :
  PREVMODEL o = VObj prev ->
  let st := default VUndefined (prev !! "orderStatus") in
  (st = VStr "PENDING" -> freezeOnApproval propKey o = Ok VNull)
  /\ (st <> VStr "PENDING" -> freezeOnApproval propKey o = Ok (VStr propKey))
  /\ (prev !! "orderStatus" = None ->
      freezeOnApproval propKey o = Ok (VStr propKey)
      /\ forall propVal, statusChangeValid o propVal = Ok true).
Proof.
  intros Hprev st.
  assert (Hget : freezeOnApproval propKey o
                 = Ok (if negb (strict_eq_str st OrderStatus.PENDING)
                       then VStr propKey else VNull))
    by (unfold freezeOnApproval; rewrite Hprev; reflexivity).
  split; [|split].
  - intros Hst. rewrite Hget.
    replace (strict_eq_str st OrderStatus.PENDING) with true; [reflexivity|].
    symmetry. apply strict_eq_str_true, Hst.
  - intros Hst. rewrite Hget.
    replace (strict_eq_str st OrderStatus.PENDING) with false; [reflexivity|].
    symmetry. apply strict_eq_str_false, Hst.
  - intros Hnone. split.
    + rewrite Hget. unfold st. rewrite Hnone. reflexivity.
    + intros propVal. unfold statusChangeValid. rewrite Hprev. cbn.
      rewrite Hnone. reflexivity.
Qed.

(** X6: whatever [freezeOnCompletion] freezes, [freezeOnApproval] freezes
    too: if the first returns the field name for an order, so does the
    second. *)
Theorem freezeOnCompletion_implies_freezeOnApproval propKey o :
  freezeOnCompletion propKey o = Ok (VStr propKey) ->
  freezeOnApproval propKey o = Ok (VStr propKey).
Proof.
  unfold freezeOnCompletion, freezeOnApproval.
  destruct (get (PREVMODEL o) "orderStatus") as [st|]; cbn; [|discriminate].
  destruct st as [| | b | n | s | m | l]; cbn; try discriminate.
  unfold OrderStatus.COMPLETE, OrderStatus.CANCELED, OrderStatus.PENDING.
  destruct (String.eqb s "COMPLETE") eqn:Hc;
    [apply String.eqb_eq in Hc; subst; reflexivity|].
  destruct (String.eqb s "CANCELED") eqn:Hx;
    [apply String.eqb_eq in Hx; subst; reflexivity|].
  discriminate.
Qed.

(** X7: [readyToDelete] returns the model it is given, unchanged, exactly
    when its orderStatus is COMPLETE or CANCELED; for every other
    orderStatus, a missing one included, it throws "order status
    incomplete". *)
Theorem readyToDelete_only_when_final model :
  (field model "orderStatus" = VStr "COMPLETE"
   \/ field model "orderStatus" = VStr "CANCELED"
   <-> readyToDelete model = Ok model)
  /\ (~ (field model "orderStatus" = VStr "COMPLETE"
         \/ field model "orderStatus" = VStr "CANCELED")
      <-> readyToDelete model = Throw (Error "order status incomplete")).
Proof.
  unfold readyToDelete. cbn.
  destruct (strict_eq_str (field model "orderStatus") OrderStatus.COMPLETE) eqn:Hc.
  - apply strict_eq_str_true in Hc. cbn. split; split; try done; auto.
    intros Hn. destruct Hn. auto.
  - destruct (strict_eq_str (field model "orderStatus") OrderStatus.CANCELED) eqn:Hx.
    + apply strict_eq_str_true in Hx. cbn. split; split; try done; auto.
      intros Hn. destruct Hn. auto.
    + apply strict_eq_str_false in Hc, Hx. cbn. split; split; try done.
      * intros [H | H]; contradiction.
      * intros _ [H | H]; contradiction.
Qed.

(** X8: [requiredForCompletion(field)] requires the field (returns its
    name) exactly when the order's current orderStatus is COMPLETE, and
    returns [undefined] otherwise; an order for which it requires a field
    is one [readyToDelete] accepts. *)
Theorem requiredForCompletion_only_when_complete propKey o :
  (requiredForCompletion propKey o = VStr propKey
   <-> field o "orderStatus" = VStr "COMPLETE")
  /\ (field o "orderStatus" <> VStr "COMPLETE" ->
      requiredForCompletion propKey o = VUndefined)
  /\ (requiredForCompletion propKey o = VStr propKey ->
      readyToDelete o = Ok o).
Proof.
  assert (Hyes : field o "orderStatus" = VStr "COMPLETE" ->
                 requiredForCompletion propKey o = VStr propKey)
    by (unfold requiredForCompletion; intros ->; reflexivity).
  assert (Hno : field o "orderStatus" <> VStr "COMPLETE" ->
                requiredForCompletion propKey o = VUndefined).
  { intros Hst. apply strict_eq_str_false in Hst. unfold requiredForCompletion.
    unfold OrderStatus.COMPLETE. rewrite Hst.
    destruct (truthy (field o "orderStatus")); reflexivity. }
  assert (Hiff : requiredForCompletion propKey o = VStr propKey
                 <-> field o "orderStatus" = VStr "COMPLETE").
  { split; [|exact Hyes]. intros Hreq.
    destruct (strict_eq_str (field o "orderStatus") "COMPLETE") eqn:Hc.
    - apply strict_eq_str_true, Hc.
    - apply strict_eq_str_false in Hc. rewrite (Hno Hc) in Hreq. discriminate. }
  split; [exact Hiff|]. split; [exact Hno|].
  intros Hreq. apply Hiff in Hreq. unfold readyToDelete. rewrite Hreq. reflexivity.
Qed.

Lemma some_invalidStatusChanges_object o prev propVal :
  PREVMODEL o = VObj prev ->
  exists bad,
    some (fun isc => isc o propVal) invalidStatusChanges = Ok bad
    /\ (bad = true ->
        propVal = VStr "PENDING" \/ propVal = VStr "APPROVED"
        \/ propVal = VStr "SHIPPING" \/ propVal = VStr "COMPLETE").
Proof.
  intros Hprev. unfold invalidStatusChanges, invalidStatusChange.
  cbn -[get strict_eq_str]. rewrite Hprev. cbn -[strict_eq_str].
  set (st := default VUndefined (prev !! "orderStatus")).
  unfold OrderStatus.PENDING, OrderStatus.APPROVED, OrderStatus.SHIPPING,
    OrderStatus.COMPLETE.
  destruct (strict_eq_str propVal "PENDING") eqn:Hp;
    [apply strict_eq_str_true in Hp |];
    (destruct (strict_eq_str propVal "APPROVED") eqn:Ha;
     [apply strict_eq_str_true in Ha |]);
    (destruct (strict_eq_str propVal "SHIPPING") eqn:Hs;
     [apply strict_eq_str_true in Hs |]);
    (destruct (strict_eq_str propVal "COMPLETE") eqn:Hc;
     [apply strict_eq_str_true in Hc |]);
    cbn;
    repeat match goal with
           | |- context [strict_eq_str st ?s] => destruct (strict_eq_str st s); cbn
           end;
    eexists; (split; [reflexivity|]); intros; try discriminate; auto.
Qed.

(** X9: [statusChangeValid] has two outcomes only, for every order and
    every proposed value: it returns true or throws "invalid status change"
    (it never returns false and never fails on a missing snapshot); and it
    can throw only when the proposed value is PENDING, APPROVED, SHIPPING or
    COMPLETE, so a proposal of CANCELED is never rejected by it. *)
Theorem statusChangeValid_outcomes o propVal :
  (statusChangeValid o propVal = Ok true
   \/ statusChangeValid o propVal = Throw (Error "invalid status change"))
  /\ (propVal <> VStr "PENDING" -> propVal <> VStr "APPROVED" ->
      propVal <> VStr "SHIPPING" -> propVal <> VStr "COMPLETE" ->
      statusChangeValid o propVal = Ok true)
  /\ statusChangeValid o (VStr "CANCELED") = Ok true.
Proof.
  assert (Hgen : forall v,
             (statusChangeValid o v = Ok true
              \/ statusChangeValid o v = Throw (Error "invalid status change"))
             /\ (v <> VStr "PENDING" -> v <> VStr "APPROVED" ->
                 v <> VStr "SHIPPING" -> v <> VStr "COMPLETE" ->
                 statusChangeValid o v = Ok true)).
  { intros v. unfold statusChangeValid.
    destruct (PREVMODEL o) as [| | b | n | s | prev | l] eqn:Hprev;
      try solve [cbn; split; auto].
    destruct (some_invalidStatusChanges_object o prev v Hprev)
      as (bad & Hsome & Hbad).
    cbn -[some]. destruct (truthy (default VUndefined (prev !! "orderStatus")));
      cbn -[some]; [|split; auto].
    rewrite Hsome. cbn. destruct bad; cbn; split; auto.
    intros Hp Ha Hs Hc. destruct (Hbad eq_refl) as [H | [H | [H | H]]];
      contradiction. }
  split; [apply Hgen|]. split; [apply Hgen|].
  apply Hgen; discriminate.
Qed.

Lemma statusChangeValid_on_edge o from to :
  previous_status o from ->
  statusChangeValid o (VStr (status_name to))
  = (if forbidden_edge from to
     then Throw (Error "invalid status change") else Ok true).
Proof.
  intros Hprev. destruct (get_previous_status o from Hprev) as [_ Hopt].
  unfold statusChangeValid. rewrite Hopt. cbn -[some truthy].
  rewrite truthy_status_name. cbn -[some].
  rewrite (some_invalidStatusChanges o from to Hprev). cbn.
  destruct (forbidden_edge from to); reflexivity.
Qed.

Lemma freezeOnCompletion_on_status propKey o from :
  previous_status o from ->
  freezeOnCompletion propKey o
  = Ok (match from with
        | sCOMPLETE | sCANCELED => VStr propKey
        | _ => VNull
        end).
Proof.
  intros Hprev. destruct (get_previous_status o from Hprev) as [Hget _].
  unfold freezeOnCompletion. rewrite Hget. destruct from; reflexivity.
Qed.

(** X10: the two guards on the status together.  For an order with a
    previous status, a proposed status passes [statusChangeValid] and is not
    frozen by [freezeOnCompletion] exactly when the edge is one of the
    allowed ones, or leaves the status of a PENDING, APPROVED or SHIPPING
    order as it is, or goes from APPROVED straight to COMPLETE. *)
Theorem status_edges_passing_both_guards o from to :
  previous_status o from ->
  (statusChangeValid o (VStr (status_name to)) = Ok true
   /\ freezeOnCompletion "orderStatus" o = Ok VNull)
  <-> (allowed_edge from to = true
       \/ (from = to /\ from <> sCOMPLETE /\ from <> sCANCELED)
       \/ (from = sAPPROVED /\ to = sCOMPLETE)).
Proof.
  intros Hprev.
  rewrite (statusChangeValid_on_edge o from to Hprev).
  rewrite (freezeOnCompletion_on_status "orderStatus" o from Hprev).
  destruct from, to; cbn; split;
    try (intros [H1 H2]; discriminate);
    try (intros _; split; reflexivity);
    try (intros _; auto; fail);
    try (intros _; right; left; repeat split; discriminate);
    try (intros [H | [(H1 & H2 & H3) | [H1 H2]]]; try discriminate; congruence).
Qed.

Section SignatureMore.
Variable StringToNumber : string -> float.
Variable ArrayToNumber : list value -> result float.

(** X11: [updateSignature] never takes a signature requirement back,
    whatever value holds it: when the order's signatureRequired is truthy,
    every result of [updateSignature] has a truthy signatureRequired; and
    its result is false only for an order whose signatureRequired is
    already false. *)
Theorem updateSignature_keeps_truthy o propVal changes :
  updateSignature StringToNumber ArrayToNumber o propVal = Ok changes ->
  exists required,
    changes = {[ "signatureRequired" := required ]}
    /\ (truthy (field o "signatureRequired") = true -> truthy required = true)
    /\ (required = VBool false -> field o "signatureRequired" = VBool false).
Proof.
  unfold updateSignature.
  destruct (calcTotal StringToNumber ArrayToNumber propVal) as [total|];
    cbn; [|discriminate].
  intros H. apply Ok_inj in H. subst changes.
  eexists. split; [reflexivity|]. unfold or_else. cbn.
  destruct (999.99 <? total)%float; split; auto; discriminate.
Qed.
End SignatureMore.

(** *** The factory, continued *)

Section FactoryMore.
Variable StringToNumber : string -> float.
Variable ArrayToNumber : list value -> result float.
Variable checkFormat : value -> string -> result unit.

(** X12: the factory fails with the first failure it meets, in this order:
    the items ([calcTotal]), the format of the card number, the signature
    flag (a boolean [requireSignature] makes [needSignature] read an unbound
    name), and the order number (a [dependencies] without [uuid]). *)
Theorem orderFactory_fails_in_order deps args :
  let orderItems := param args "orderItems" VUndefined in
  let card := param args "creditCardNumber" VNull in
  let flag := param args "requireSignature" VUndefined in
  let create := orderFactory StringToNumber ArrayToNumber checkFormat deps args in
  (forall e,
      calcTotal StringToNumber ArrayToNumber orderItems = Throw e ->
      create = Throw e)
  /\ (forall total e,
      calcTotal StringToNumber ArrayToNumber orderItems = Ok total ->
      checkFormat card "creditCard" = Throw e ->
      create = Throw e)
  /\ (forall total,
      calcTotal StringToNumber ArrayToNumber orderItems = Ok total ->
      checkFormat card "creditCard" = Ok () ->
      is_boolean flag = true ->
      create = Throw (ReferenceError "requireSignature is not defined"))
  /\ (forall total,
      calcTotal StringToNumber ArrayToNumber orderItems = Ok total ->
      checkFormat card "creditCard" = Ok () ->
      is_boolean flag = false ->
      uuid deps = None ->
      create = Throw (TypeError "dependencies.uuid is not a function")).
Proof.
  intros orderItems card flag create. unfold create, orderFactory.
  fold orderItems card flag. repeat split.
  - intros e ->. reflexivity.
  - intros total e -> ->. reflexivity.
  - intros total -> -> Hflag. cbn. unfold needSignature. rewrite Hflag. reflexivity.
  - intros total -> -> Hflag ->. cbn. unfold needSignature. rewrite Hflag.
    reflexivity.
Qed.

(** X13: no order is ever created with a boolean [requireSignature], nor by
    a factory whose [dependencies] have no [uuid] (as in
    [make(Order, {})]): whatever the items and the card, the factory
    throws. *)
Theorem orderFactory_never_creates deps args :
  is_boolean (param args "requireSignature" VUndefined) = true
  \/ uuid deps = None ->
  forall order,
    orderFactory StringToNumber ArrayToNumber checkFormat deps args <> Ok order.
Proof.
  intros Hbad order. unfold orderFactory.
  destruct (calcTotal _ _ _) as [total|]; cbn; [|discriminate].
  destruct (checkFormat _ _); cbn; [|discriminate].
  unfold needSignature.
  destruct (is_boolean _) eqn:Hflag; cbn; [discriminate|].
  destruct Hbad as [Hbad | ->]; [discriminate|]. cbn. discriminate.
Qed.

Lemma orderFactory_created deps args order :
  orderFactory StringToNumber ArrayToNumber checkFormat deps args = Ok order ->
  exists total orderNo,
    calcTotal StringToNumber ArrayToNumber (param args "orderItems" VUndefined)
    = Ok total
    /\ uuid deps = Some orderNo
    /\ order
       = VObj {[ "customerInfo" := param args "customerInfo" VUndefined;
                 "orderItems" := param args "orderItems" VUndefined;
                 "creditCardNumber" := param args "creditCardNumber" VNull;
                 "billingAddress" := param args "billingAddress" VNull;
                 "shippingAddress" := param args "shippingAddress" VNull;
                 "signatureRequired" := VUndefined;
                 "orderTotal" := VNum total;
                 "orderStatus" := VStr OrderStatus.PENDING;
                 "orderNo" := orderNo ]}.
Proof.
  unfold orderFactory.
  destruct (calcTotal _ _ _) as [total|]; cbn; [|discriminate].
  destruct (checkFormat _ _); cbn; [|discriminate].
  unfold needSignature. destruct (is_boolean _); cbn; [discriminate|].
  destruct (uuid deps) as [orderNo|]; cbn; [|discriminate].
  intros H. apply Ok_inj in H. subst order. exists total, orderNo. done.
Qed.

(** X14: every order the factory creates is an object with exactly the
    nine properties of an order: it is PENDING, its orderTotal is the total
    of the items it was given, which it stores as given, its orderNo is
    what [uuid] returned, and an address or card number that was not given
    (or given as [undefined]) is null. *)
Theorem orderFactory_creates_pending_order deps args order :
  orderFactory StringToNumber ArrayToNumber checkFormat deps args = Ok order ->
  exists m total orderNo,
    order = VObj m
    /\ dom m = {[ "customerInfo"; "orderItems"; "creditCardNumber";
                  "billingAddress"; "shippingAddress"; "signatureRequired";
                  "orderTotal"; "orderStatus"; "orderNo" ]}
    /\ m !! "orderStatus" = Some (VStr "PENDING")
    /\ calcTotal StringToNumber ArrayToNumber (param args "orderItems" VUndefined)
       = Ok total
    /\ m !! "orderTotal" = Some (VNum total)
    /\ m !! "orderItems" = Some (param args "orderItems" VUndefined)
    /\ uuid deps = Some orderNo
    /\ m !! "orderNo" = Some orderNo
    /\ (forall k,
          k = "billingAddress" \/ k = "shippingAddress" \/ k = "creditCardNumber" ->
          m !! k = Some (param args k VNull)
          /\ (args !! k = None \/ args !! k = Some VUndefined ->
              m !! k = Some VNull)).
Proof.
  intros Hcreate.
  destruct (orderFactory_created deps args order Hcreate)
    as (total & orderNo & Htotal & Huuid & ->).
  eexists _, total, orderNo. split; [reflexivity|].
  split; [rewrite !dom_insert_L, dom_singleton_L; reflexivity|].
  split; [reflexivity|]. split; [exact Htotal|].
  split; [reflexivity|]. split; [reflexivity|].
  split; [exact Huuid|]. split; [reflexivity|].
  intros k [-> | [-> | ->]]; (split; [reflexivity|]);
    unfold param; intros [-> | ->]; reflexivity.
Qed.

(** X15: a freshly created order, as the guards see it: it cannot be
    deleted ([readyToDelete] throws), no field is required for completion,
    and the orderTotal it records passes [orderTotalValid] unless it is
    NaN. *)
Theorem created_order_and_guards deps args m o :
  orderFactory StringToNumber ArrayToNumber checkFormat deps args = Ok (VObj m) ->
  fields o = m ->
  readyToDelete o = Throw (Error "order status incomplete")
  /\ (forall propKey, requiredForCompletion propKey o = VUndefined)
  /\ exists total,
      field o "orderTotal" = VNum total
      /\ orderTotalValid StringToNumber ArrayToNumber o (VNum total)
         = Ok (PrimFloat.eqb total total).
Proof.
  intros Hcreate Hfields.
  destruct (orderFactory_created deps args (VObj m) Hcreate)
    as (total & orderNo & Htotal & Huuid & Hm).
  apply VObj_inj in Hm.
  assert (Hstatus : field o "orderStatus" = VStr "PENDING")
    by (unfold field; rewrite Hfields, Hm; reflexivity).
  assert (Hitems : field o "orderItems" = param args "orderItems" VUndefined)
    by (unfold field; rewrite Hfields, Hm; reflexivity).
  split; [unfold readyToDelete; rewrite Hstatus; reflexivity|].
  split; [intros propKey; unfold requiredForCompletion; rewrite Hstatus;
          reflexivity|].
  exists total. split; [unfold field; rewrite Hfields, Hm; reflexivity|].
  unfold orderTotalValid. rewrite Hitems, Htotal. reflexivity.
Qed.
End FactoryMore.

(** *** Continuations, continued *)

Ltac run_callback :=
  unfold call_back, paymentCompleted, deliveryVerified, trackingUpdate,
    orderShipped, orderPicked, addressValidated, paymentAuthorized,
    refundPayment, order_update, throw, mbind, M_bind, mret, M_ret;
  cbn [trace outcome negb orb andb].

Ltac split_payload args :=
  try destruct (truthy (argument args 0)); try destruct (truthy (argument args 1));
  cbn [trace outcome negb orb andb app].

(** What a callback leaves behind: nothing when its payload is missing,
    one update otherwise. *)
Lemma call_back_trace k order args :
  if payload_present k args
  then exists changes,
      trace (call_back k order args) = [Update changes]
      /\ changes !! "orderStatus" = status_written k
      /\ (forall e, update order changes = Throw e ->
                    outcome (call_back k order args) = Throw e)
      /\ (forall updated, update order changes = Ok updated ->
                          exists v, outcome (call_back k order args) = Ok v)
  else trace (call_back k order args) = []
       /\ exists msg, outcome (call_back k order args) = Throw (Error msg).
Proof.
  destruct k; unfold payload_present; run_callback; split_payload args;
    try (split; [reflexivity | eexists; reflexivity]);
    (eexists; split;
     [ match goal with
       | |- context [update order ?c] => destruct (update order c); reflexivity
       | |- _ => reflexivity
       end |];
     split; [reflexivity|]; split;
     [ intros e ->; reflexivity | intros updated ->; eexists; reflexivity ]).
Qed.

(** X16: every continuation rejects a missing payload before it touches
    the order: with a falsy required argument (either of the two, for
    [trackingUpdate]) it throws an [Error] and applies no update; with its
    payload it applies exactly one update, and fails with the update's
    error when the update is rejected.  [paymentCompleted] requires
    nothing. *)
Theorem continuations_check_payload_first k order args :
  (payload_present k args = false ->
   trace (call_back k order args) = []
   /\ exists msg, outcome (call_back k order args) = Throw (Error msg))
  /\ (payload_present k args = true ->
      exists changes,
        trace (call_back k order args) = [Update changes]
        /\ (forall e, update order changes = Throw e ->
                      outcome (call_back k order args) = Throw e)
        /\ (forall updated, update order changes = Ok updated ->
                            exists v, outcome (call_back k order args) = Ok v)).
Proof.
  pose proof (call_back_trace k order args) as H.
  destruct (payload_present k args); split; try discriminate; intros _.
  - destruct H as (changes & Htrace & _ & Hthrow & Hok). eauto.
  - exact H.
Qed.

(** X17: the status is written by two continuations only: the update of
    [orderShipped] sets orderStatus to SHIPPING and the one of
    [paymentCompleted] sets it to COMPLETE; no update of any other
    continuation carries an orderStatus, whatever it is called with. *)
Theorem continuations_writing_status k order args changes :
  changes ∈ updates (trace (call_back k order args)) ->
  changes !! "orderStatus" = status_written k
  /\ (is_Some (changes !! "orderStatus")
      <-> k = cb_orderShipped \/ k = cb_paymentCompleted).
Proof.
  intros Hin. pose proof (call_back_trace k order args) as H.
  destruct (payload_present k args).
  - destruct H as (c & Htrace & Hstatus & _). rewrite Htrace in Hin.
    cbn in Hin. apply list_elem_of_singleton in Hin. subst c.
    split; [exact Hstatus|]. rewrite Hstatus.
    destruct k; cbn; split;
      try (intros [v Hv]; discriminate);
      try (intros [Hk | Hk]; discriminate); eauto.
  - destruct H as [Htrace _]. rewrite Htrace in Hin. cbn in Hin.
    inversion Hin.
Qed.

(** X18: the status a continuation writes, against the guard: for an order
    with a previous status, [statusChangeValid] rejects the status written
    by [orderShipped] or [paymentCompleted] exactly when the order was
    PENDING, and accepts it from every other status. *)
Theorem continuation_status_against_guard k order args from changes proposed :
  previous_status order from ->
  changes ∈ updates (trace (call_back k order args)) ->
  changes !! "orderStatus" = Some proposed ->
  statusChangeValid order proposed
  = (match from with
     | sPENDING => Throw (Error "invalid status change")
     | _ => Ok true
     end).
Proof.
  intros Hprev Hin Hproposed. pose proof (call_back_trace k order args) as H.
  destruct (payload_present k args).
  - destruct H as (c & Htrace & Hstatus & _). rewrite Htrace in Hin.
    cbn in Hin. apply list_elem_of_singleton in Hin. subst c.
    rewrite Hstatus in Hproposed.
    destruct k; cbn in Hproposed; try discriminate;
      apply (f_equal (default VUndefined)) in Hproposed; cbn in Hproposed;
      subst proposed.
    + etransitivity; [exact (statusChangeValid_on_edge order from sCOMPLETE Hprev)|].
      destruct from; reflexivity.
    + etransitivity; [exact (statusChangeValid_on_edge order from sSHIPPING Hprev)|].
      destruct from; reflexivity.
  - destruct H as [Htrace _]. rewrite Htrace in Hin. cbn in Hin.
    inversion Hin.
Qed.

(** *** Actions and dispatcher, continued *)

Lemma OrderActions_action_of st :
  OrderActions !! status_name st = Some (action_of st).
Proof. destruct st; reflexivity. Qed.

(** X19: the APPROVED, SHIPPING and CANCELED actions make one call each
    (pick, track, compensate).  When the call returns, the action is done;
    when it throws, the action logs the error under its status name and
    rejects with a new [Error] whose message is the error's string form,
    and calls nothing else: a failing pick or track does not start the
    compensation. *)
Theorem single_call_actions st p k order :
  action_call st = Some (p, k) ->
  OrderActions !! status_name st = Some (action_of st)
  /\ (port_call order p = None ->
      action_of st order = Task [Invoke p k] resolved)
  /\ (forall e,
        port_call order p = Some e ->
        action_of st order
        = Task [Invoke p k; ConsoleError (status_name st) e]
               (Settled (Throw (Error (exn_to_string e))))).
Proof.
  intros Hcall. split; [apply OrderActions_action_of|].
  destruct st; cbn in Hcall; try discriminate;
    apply (f_equal (default (p, k))) in Hcall; cbn in Hcall;
    apply pair_equal_spec in Hcall as [<- <-];
    (split; [intros Hret | intros e Hthrow]);
    unfold action_of, action_APPROVED, action_SHIPPING, action_CANCELED,
      async, try_catch, invoke, handleError, emit, throw, mbind, M_bind;
    cbn [trace outcome]; rewrite ?Hret, ?Hthrow; reflexivity.
Qed.

(** X20: the PENDING action when a call throws.  If the address call
    throws, payment authorization is never attempted; if the payment call
    throws, the address call has been issued already and its result is
    dropped.  In both cases the error is logged under PENDING and the
    action rejects at once with an [Error] carrying its string form. *)
Theorem pending_action_when_a_call_throws order :
  (forall e,
      port_call order validateAddress = Some e ->
      action_PENDING order
      = Task [Invoke validateAddress (Some K_addressValidated);
              ConsoleError "PENDING" e]
             (Settled (Throw (Error (exn_to_string e)))))
  /\ (forall e,
      port_call order validateAddress = None ->
      port_call order authorizePayment = Some e ->
      action_PENDING order
      = Task [Invoke validateAddress (Some K_addressValidated);
              Invoke authorizePayment (Some K_paymentAuthorized);
              ConsoleError "PENDING" e]
             (Settled (Throw (Error (exn_to_string e))))
      /\ forall h,
          state h (returned (action_PENDING order))
          = Rejected (Error (exn_to_string e))).
Proof.
  split.
  - intros e Hva.
    unfold action_PENDING, async, try_catch, invoke, handleError, emit, throw,
      mbind, M_bind. cbn [trace outcome]. rewrite Hva. reflexivity.
  - intros e Hva Hap.
    assert (Hact : action_PENDING order
                   = Task [Invoke validateAddress (Some K_addressValidated);
                           Invoke authorizePayment (Some K_paymentAuthorized);
                           ConsoleError "PENDING" e]
                          (Settled (Throw (Error (exn_to_string e))))).
    { unfold action_PENDING, async, try_catch, invoke, handleError, emit, throw,
        mbind, M_bind. cbn [trace outcome]. rewrite Hva. cbn [trace outcome].
      rewrite Hap. reflexivity. }
    split; [exact Hact|]. intros h. rewrite Hact. reflexivity.
Qed.

Lemma action_returns_settled st order :
  st <> sPENDING -> exists r, returned (action_of st order) = Settled r.
Proof.
  intros Hst. destruct st; try contradiction;
    unfold action_of, action_APPROVED, action_SHIPPING, action_CANCELED,
      action_COMPLETE, async, try_catch, invoke, handleError, emit, throw,
      mbind, M_bind; cbn [trace outcome returned];
    repeat match goal with
           | |- context [port_call order ?p] => destruct (port_call order p)
           end; cbn; eauto.
Qed.

(** X21: fire and forget.  The actions of APPROVED, SHIPPING, CANCELED and
    COMPLETE hand their caller a promise that is settled whatever the
    adapters have answered so far, and so does [handleOrderEvent] for an
    order in one of these statuses, for every event: only the PENDING
    action makes its caller wait. *)
Theorem actions_other_than_pending_do_not_wait st order :
  st <> sPENDING ->
  (forall h,
      state h (returned (action_of st order)) <> Pending
      /\ state h (returned (action_of st order))
         = state [] (returned (action_of st order)))
  /\ (field order "orderStatus" = VStr (status_name st) ->
      forall eventType changes h,
        state h (returned (handleOrderEvent order eventType changes)) <> Pending).
Proof.
  intros Hst. destruct (action_returns_settled st order Hst) as [r Hr].
  split.
  - intros h. rewrite Hr. destruct r; cbn; split; congruence.
  - intros Hstatus eventType changes h. unfold handleOrderEvent.
    rewrite (handleStatusChange_action order st (action_of st) Hstatus
               (OrderActions_action_of st)).
    destruct (get_opt changes "orderStatus") as [changed|e]; [|cbn; discriminate].
    destruct (truthy changed || strict_eq_str eventType "CREATE");
      [|cbn; discriminate].
    cbn [returned]. rewrite Hr. destruct r; cbn; discriminate.
Qed.

(** X22: an order that has no orderStatus has no action: for a creation,
    or an update that carries a status, [handleOrderEvent] calls no port
    and logs nothing, and its promise is rejected with a [TypeError]. *)
Theorem handleOrderEvent_without_status order eventType changes :
  field order "orderStatus" = VUndefined \/ field order "orderStatus" = VNull ->
  handleStatusChange order
  = Task [] (Settled (Throw (TypeError "OrderActions[order.orderStatus] is not a function")))
  /\ effects (handleOrderEvent order eventType changes) = []
  /\ (eventType = VStr "CREATE" ->
      forall h,
        state h (returned (handleOrderEvent order eventType changes))
        = Rejected (TypeError "OrderActions[order.orderStatus] is not a function")).
Proof.
  intros Hstatus.
  assert (Hchange : handleStatusChange order
                    = Task [] (Settled (Throw (TypeError
                        "OrderActions[order.orderStatus] is not a function")))).
  { unfold handleStatusChange. destruct Hstatus as [-> | ->]; reflexivity. }
  split; [exact Hchange|]. unfold handleOrderEvent. rewrite Hchange.
  assert (Hget : exists c, get_opt changes "orderStatus" = Ok c)
    by (destruct changes; cbn; eauto).
  destruct Hget as [c ->]. split.
  - destruct (truthy c || strict_eq_str eventType "CREATE"); reflexivity.
  - intros -> h.
    replace (truthy c || strict_eq_str (VStr "CREATE") "CREATE") with true
      by (destruct (truthy c); reflexivity).
    reflexivity.
Qed.

(** X23: what triggers the action, exactly.  For an order in one of the
    five statuses, [handleOrderEvent] runs the action when the event type
    is the string "CREATE" or the changes are an object whose orderStatus
    is truthy, and only then: an orderStatus that is listed with a falsy
    value (the empty string, null) triggers nothing, and any truthy value
    does, a status or not. *)
Theorem handleOrderEvent_trigger order st eventType changes :
  field order "orderStatus" = VStr (status_name st) ->
  effects (handleOrderEvent order eventType changes) <> []
  <-> (eventType = VStr "CREATE"
       \/ exists m v, changes = VObj m /\ m !! "orderStatus" = Some v
                      /\ truthy v = true).
Proof.
  intros Hstatus. unfold handleOrderEvent.
  rewrite (handleStatusChange_action order st (action_of st) Hstatus
             (OrderActions_action_of st)).
  destruct (OrderActions_total st order) as (act & Hact & Heffects).
  rewrite OrderActions_action_of in Hact. apply (f_equal (default act)) in Hact.
  cbn in Hact. subst act.
  assert (Hget : exists c,
             get_opt changes "orderStatus" = Ok c
             /\ (truthy c = true
                 <-> exists m v, changes = VObj m /\ m !! "orderStatus" = Some v
                                /\ truthy v = true)).
  { destruct changes as [| | b | n | s | m | l];
      try (exists VUndefined; split; [reflexivity|]; split;
           [discriminate | intros (m' & v & Hm & _); discriminate]).
    cbn. destruct (m !! "orderStatus") as [v|] eqn:Hv; cbn.
    - exists v. split; [reflexivity|]. split; [eauto|].
      intros (m' & v' & Hm & Hv' & Htruthy). apply VObj_inj in Hm. subst m'.
      congruence.
    - exists VUndefined. split; [reflexivity|]. split; [discriminate|].
      intros (m' & v' & Hm & Hv' & _). apply VObj_inj in Hm. subst m'.
      congruence. }
  destruct Hget as (c & -> & Hc).
  pose proof (strict_eq_str_true eventType "CREATE") as Hcreate.
  destruct (truthy c) eqn:Htruthy; cbn.
  - split; [intros _; right; apply Hc; reflexivity | intros _; exact Heffects].
  - destruct (strict_eq_str eventType "CREATE"); cbn.
    + split; [intros _; left; apply Hcreate; reflexivity | intros _; exact Heffects].
    + split; [congruence|]. intros [H | H].
      * apply Hcreate in H. discriminate.
      * apply Hc in H. discriminate.
Qed.

(** *** Compensation *)

(** X24: the four ways into compensation.  [errorCallback],
    [timeoutCallback], the exported [compensate] and the CANCELED action
    each call [order.compensate()] once, with no continuation, and call
    nothing else on the order.  They differ when that call throws:
    the two callbacks let the exception through to the adapter layer, the
    exported [compensate] rejects with it, and the CANCELED action logs it
    and rejects with a new [Error]. *)
Theorem compensation_routes order port_name error :
  compensations (fst (errorCallback port_name order error))
  = [Effect (Invoke compensate None)]
  /\ compensations (fst (timeoutCallback port_name order))
     = [Effect (Invoke compensate None)]
  /\ effects (compensate_model order) = [Invoke compensate None]
  /\ (port_call order compensate = None ->
      snd (errorCallback port_name order error) = Ok ()
      /\ snd (timeoutCallback port_name order) = Ok ()
      /\ returned (compensate_model order) = resolved
      /\ action_CANCELED order = Task [Invoke compensate None] resolved)
  /\ (forall e,
        port_call order compensate = Some e ->
        snd (errorCallback port_name order error) = Throw e
        /\ snd (timeoutCallback port_name order) = Throw e
        /\ returned (compensate_model order) = Settled (Throw e)
        /\ action_CANCELED order
           = Task [Invoke compensate None; ConsoleError "CANCELED" e]
                  (Settled (Throw (Error (exn_to_string e))))).
Proof.
  unfold errorCallback, timeoutCallback, call_compensate, compensate_model,
    action_CANCELED, async, try_catch, invoke, handleError, emit, throw,
    mbind, M_bind.
  destruct (port_call order compensate) as [e0|]; cbn.
  - split; [reflexivity|]. split; [reflexivity|]. split; [reflexivity|].
    split; [discriminate|]. intros e He.
    assert (e0 = e) by congruence. subst e0. repeat split.
  - split; [reflexivity|]. split; [reflexivity|]. split; [reflexivity|].
    split; [intros _; repeat split | intros e He; discriminate].
Qed.

(** *** The address adapter *)

(** X25: the address adapter with [addressValidated] as its callback, end
    to end.  When the service answers with an address, the adapter applies
    one update that writes that address (the service's answer, not the
    order's own) as shippingAddress, and resolves with the updated order or
    rejects with the update's error; when the service answers with nothing
    (a falsy value), it rejects with "shippingAddress is missing" and the
    order is not touched. *)
Theorem address_adapter_with_addressValidated service options decrypted address verified :
  AddressAdapter.callback options = Some addressValidated ->
  AddressAdapter.decrypt options = Ok decrypted ->
  get decrypted "shippingAddress" = Ok address ->
  service address = Ok verified ->
  (truthy verified = true ->
   AddressAdapter.validateAddress service options
   = ([Update {[ "shippingAddress" := verified ]}],
      match update (AddressAdapter.model options)
                   {[ "shippingAddress" := verified ]} with
      | Ok updated => Resolves updated
      | Throw e => Rejects e
      end))
  /\ (truthy verified = false ->
      AddressAdapter.validateAddress service options
      = ([], Rejects (Error "shippingAddress is missing"))).
Proof.
  intros Hk Hdecrypt Haddress Hservice.
  unfold AddressAdapter.validateAddress.
  rewrite Hdecrypt. cbn [mbind result_bind]. rewrite Haddress.
  cbn [mbind result_bind]. rewrite Hservice, Hk.
  unfold addressValidated, order_update, throw.
  split; intros ->; reflexivity.
Qed.

(** X26: what settles the adapter's promise is the callback and nothing
    else.  A failure before the callback (in [decrypt], in reading the
    address, or in the service) is swallowed: the promise is never
    resolved nor rejected, and the callback is not run.  Once the service
    has answered, the promise resolves with what the callback returns,
    rejects with what it throws, and rejects with a [TypeError] when there
    is no callback. *)
Theorem address_adapter_settlement service options :
  (forall e,
      (decrypted ← AddressAdapter.decrypt options;
       address ← get decrypted "shippingAddress";
       service address) = Throw e ->
      AddressAdapter.validateAddress service options = ([], NeverSettles))
  /\ (forall verified,
      (decrypted ← AddressAdapter.decrypt options;
       address ← get decrypted "shippingAddress";
       service address) = Ok verified ->
      match AddressAdapter.callback options with
      | None =>
          AddressAdapter.validateAddress service options
          = ([], Rejects (TypeError "callback is not a function"))
      | Some k =>
          let run := k (AddressAdapter.model options) verified in
          fst (AddressAdapter.validateAddress service options) = trace run
          /\ (forall updated,
                outcome run = Ok updated ->
                snd (AddressAdapter.validateAddress service options)
                = Resolves updated)
          /\ (forall e,
                outcome run = Throw e ->
                snd (AddressAdapter.validateAddress service options)
                = Rejects e)
      end)
  /\ (forall events,
      AddressAdapter.validateAddress service options = (events, NeverSettles) ->
      events = []).
Proof.
  unfold AddressAdapter.validateAddress.
  destruct (decrypted ← AddressAdapter.decrypt options;
            address ← get decrypted "shippingAddress";
            service address) as [verified|e0].
  - split; [discriminate|]. split.
    + intros v Hv. apply Ok_inj in Hv. subst v.
      destruct (AddressAdapter.callback options) as [k|]; [|reflexivity].
      cbn. split; [reflexivity|]. split; intros x ->; reflexivity.
    + intros events.
      destruct (AddressAdapter.callback options) as [k|]; [|discriminate].
      destruct (outcome (k (AddressAdapter.model options) verified));
        intros H; apply pair_equal_spec in H as [_ H]; discriminate.
  - split; [reflexivity|]. split; [discriminate|].
    intros events H. apply pair_equal_spec in H as [H _]. congruence.
Qed.

(** *** The interface adapter *)

Section InterfaceAdapterFacts.
Context {R : Type}.
Implicit Types (ia : InterfaceAdapter.t R) (a b : InterfaceAdapter.adapter R).

(** X27: registering and invoking.  After [add(iface, a)], [invoke(iface)]
    calls [a] with the adaptee as [this] and the interface name; a second
    [add] for the same name replaces the first; adding under another name
    changes nothing for this one; and invoking a name that was never added
    rejects with a [TypeError]. *)
Theorem interface_adapter_add_invoke ia iface a :
  InterfaceAdapter.invoke iface (InterfaceAdapter.add iface a ia)
  = Ok (a (Some (InterfaceAdapter.adaptee ia)) iface)
  /\ (forall b,
        InterfaceAdapter.invoke iface
          (InterfaceAdapter.add iface b (InterfaceAdapter.add iface a ia))
        = Ok (b (Some (InterfaceAdapter.adaptee ia)) iface))
  /\ (forall other,
        other <> iface ->
        InterfaceAdapter.invoke other (InterfaceAdapter.add iface a ia)
        = InterfaceAdapter.invoke other ia)
  /\ (forall adaptee,
        InterfaceAdapter.invoke iface (InterfaceAdapter.create adaptee)
        = (Throw (TypeError "cannot read property call of undefined")
           : result R)).
Proof.
  unfold InterfaceAdapter.invoke, InterfaceAdapter.add, InterfaceAdapter.create.
  cbn. split; [rewrite lookup_insert_eq; reflexivity|].
  split; [intros b; rewrite lookup_insert_eq; reflexivity|].
  split; [intros other Hother; rewrite lookup_insert_ne by congruence; reflexivity|].
  intros adaptee. rewrite lookup_empty. reflexivity.
Qed.

(** X28: [createFunctions] gives the adaptee one function for each
    registered interface and leaves its other properties alone.  Calling
    the function calls the adapter with the interface name but with no
    [this], where [invoke] passes the adaptee; and the function keeps the
    adapter it was made from: an [add] after [createFunctions] changes what
    [invoke] calls, not what the function calls. *)
Theorem interface_adapter_createFunctions ia iface a :
  InterfaceAdapter.adapters ia !! iface = Some a ->
  InterfaceAdapter.call_member iface (InterfaceAdapter.createFunctions ia)
  = Ok (a None iface)
  /\ InterfaceAdapter.invoke iface (InterfaceAdapter.createFunctions ia)
     = Ok (a (Some (InterfaceAdapter.adaptee (InterfaceAdapter.createFunctions ia)))
             iface)
  /\ (forall b,
        let later := InterfaceAdapter.add iface b (InterfaceAdapter.createFunctions ia) in
        InterfaceAdapter.call_member iface later = Ok (a None iface)
        /\ InterfaceAdapter.invoke iface later
           = Ok (b (Some (InterfaceAdapter.adaptee later)) iface))
  /\ (forall other,
        InterfaceAdapter.adapters ia !! other = None ->
        InterfaceAdapter.adaptee (InterfaceAdapter.createFunctions ia) !! other
        = InterfaceAdapter.adaptee ia !! other).
Proof.
  intros Ha. unfold InterfaceAdapter.adapter in *.
  assert (Hmember :
            InterfaceAdapter.adaptee (InterfaceAdapter.createFunctions ia) !! iface
            = Some (InterfaceAdapter.Method (fun _ => a None iface))).
  { unfold InterfaceAdapter.createFunctions. cbn [InterfaceAdapter.adaptee].
    apply lookup_union_Some_l. rewrite map_lookup_imap, Ha. reflexivity. }
  split; [unfold InterfaceAdapter.call_member; rewrite Hmember; reflexivity|].
  split; [unfold InterfaceAdapter.invoke, InterfaceAdapter.createFunctions,
            InterfaceAdapter.adapter;
          cbn [InterfaceAdapter.adapters InterfaceAdapter.adaptee];
          rewrite Ha; reflexivity|].
  split.
  - intros b. split.
    + unfold InterfaceAdapter.call_member, InterfaceAdapter.add.
      cbn [InterfaceAdapter.adaptee]. rewrite Hmember. reflexivity.
    + unfold InterfaceAdapter.invoke, InterfaceAdapter.add,
        InterfaceAdapter.adapter.
      cbn [InterfaceAdapter.adapters InterfaceAdapter.adaptee].
      rewrite lookup_insert_eq. reflexivity.
  - intros other Hother. unfold InterfaceAdapter.createFunctions,
      InterfaceAdapter.adapter in *.
    cbn [InterfaceAdapter.adaptee].
    apply lookup_union_r. rewrite map_lookup_imap, Hother. reflexivity.
Qed.
End InterfaceAdapterFacts.

(** *** Instances *)

Lemma checkItems_idempotent_witness :
  checkItems (VArr [item_a]) = Ok [item_a]
  /\ calcTotal no_StringToNumber no_ArrayToNumber item_a
     = calcTotal no_StringToNumber no_ArrayToNumber (VArr [item_a]).
Proof.
  apply (checkItems_idempotent no_StringToNumber no_ArrayToNumber item_a [item_a]).
  reflexivity.
Defined.

Lemma calcTotal_append_item_witness :
  calcTotal no_StringToNumber no_ArrayToNumber (VArr ([item_a] ++ [item_b])%list)
  = Ok (500 + item_price item_b * qty_or_one item_b)%float.
Proof.
  apply (calcTotal_append_item no_StringToNumber no_ArrayToNumber
           [item_a] item_b 500%float).
  - repeat constructor. apply item_a_priced.
  - apply item_b_priced.
  - reflexivity.
Defined.

Lemma recalcTotal_passes_orderTotalValid_witness :
  orderTotalValid no_StringToNumber no_ArrayToNumber order_of_two_items
    (VNum 1100%float) = Ok true
  /\ orderTotalValid no_StringToNumber no_ArrayToNumber order_of_nan_item
       (VNum nan) = Ok false.
Proof.
  split.
  - apply (recalcTotal_passes_orderTotalValid no_StringToNumber no_ArrayToNumber
             order_of_two_items 1100%float). reflexivity.
  - destruct (recalcTotal_passes_orderTotalValid no_StringToNumber
                no_ArrayToNumber order_of_nan_item nan eq_refl)
      as (_ & _ & Hnan & _).
    apply Hnan. reflexivity.
Defined.

Lemma freezeOnApproval_frozen_unless_pending_witness :
  freezeOnApproval "orderItems" signed_order = Ok VNull
  /\ freezeOnApproval "orderItems" approved_order = Ok (VStr "orderItems")
  /\ freezeOnApproval "orderItems" unsaved_order = Ok (VStr "orderItems").
Proof.
  split; [|split].
  - destruct (freezeOnApproval_frozen_unless_pending "orderItems" signed_order
                {[ "orderStatus" := VStr "PENDING" ]} eq_refl) as (Hpending & _).
    apply Hpending. reflexivity.
  - destruct (freezeOnApproval_frozen_unless_pending "orderItems" approved_order
                {[ "orderStatus" := VStr "APPROVED" ]} eq_refl) as (_ & Hother & _).
    apply Hother. discriminate.
  - destruct (freezeOnApproval_frozen_unless_pending "orderItems" unsaved_order
                ∅ eq_refl) as (_ & _ & Hnone).
    apply Hnone. reflexivity.
Defined.

Lemma freezeOnCompletion_implies_freezeOnApproval_witness :
  freezeOnApproval "shippingAddress" completed_order = Ok (VStr "shippingAddress").
Proof.
  apply (freezeOnCompletion_implies_freezeOnApproval "shippingAddress" completed_order).
  reflexivity.
Defined.

Lemma requiredForCompletion_only_when_complete_witness :
  requiredForCompletion "proofOfDelivery" completed_order = VStr "proofOfDelivery"
  /\ requiredForCompletion "proofOfDelivery" shipping_order = VUndefined.
Proof.
  split.
  - apply (requiredForCompletion_only_when_complete "proofOfDelivery" completed_order).
    reflexivity.
  - apply (requiredForCompletion_only_when_complete "proofOfDelivery" shipping_order).
    discriminate.
Defined.

Lemma statusChangeValid_outcomes_witness :
  statusChangeValid completed_order (VStr "REFUNDED") = Ok true.
Proof.
  apply (statusChangeValid_outcomes completed_order (VStr "REFUNDED"));
    discriminate.
Defined.

Lemma status_edges_passing_both_guards_witness :
  statusChangeValid approved_order (VStr (status_name sCOMPLETE)) = Ok true
  /\ freezeOnCompletion "orderStatus" approved_order = Ok VNull.
Proof.
  apply (status_edges_passing_both_guards approved_order sAPPROVED sCOMPLETE).
  - apply approved_order_previous_status.
  - right. right. split; reflexivity.
Defined.

Lemma updateSignature_keeps_truthy_witness :
  exists required,
    ({[ "signatureRequired" := VBool true ]} : gmap string value)
    = {[ "signatureRequired" := required ]}
    /\ (truthy (field signed_order "signatureRequired") = true ->
        truthy required = true)
    /\ (required = VBool false ->
        field signed_order "signatureRequired" = VBool false).
Proof.
  apply (updateSignature_keeps_truthy no_StringToNumber no_ArrayToNumber
           signed_order (VArr [item_zero_qty])).
  reflexivity.
Defined.

Lemma orderFactory_fails_in_order_witness :
  orderFactory no_StringToNumber no_ArrayToNumber accept_format
    scenario_dependencies
    {[ "orderItems" := VArr [item_a; item_b]; "requireSignature" := VBool true ]}
  = Throw (ReferenceError "requireSignature is not defined").
Proof.
  apply (orderFactory_fails_in_order no_StringToNumber no_ArrayToNumber
           accept_format scenario_dependencies
           {[ "orderItems" := VArr [item_a; item_b];
              "requireSignature" := VBool true ]}) with (total := 1100%float);
    reflexivity.
Defined.

Lemma orderFactory_never_creates_witness :
  ~ exists order,
      orderFactory no_StringToNumber no_ArrayToNumber accept_format
        {| uuid := None |} {[ "orderItems" := VArr [item_a; item_b] ]}
      = Ok order.
Proof.
  intros [order Hcreate].
  apply (orderFactory_never_creates no_StringToNumber no_ArrayToNumber
           accept_format {| uuid := None |}
           {[ "orderItems" := VArr [item_a; item_b] ]}
           (or_intror eq_refl) order Hcreate).
Defined.

Lemma scenario1_created :
  orderFactory no_StringToNumber no_ArrayToNumber accept_format
    scenario_dependencies {[ "orderItems" := VArr [item_a; item_b] ]}
  = Ok (VObj {[ "customerInfo" := VUndefined;
                "orderItems" := VArr [item_a; item_b];
                "creditCardNumber" := VNull;
                "billingAddress" := VNull;
                "shippingAddress" := VNull;
                "signatureRequired" := VUndefined;
                "orderTotal" := VNum 1100%float;
                "orderStatus" := VStr "PENDING";
                "orderNo" := VStr "order-1" ]}).
Proof. vm_compute. reflexivity. Qed.

Lemma orderFactory_creates_pending_order_witness :
  exists m total orderNo,
    VObj {[ "customerInfo" := VUndefined;
            "orderItems" := VArr [item_a; item_b];
            "creditCardNumber" := VNull;
            "billingAddress" := VNull;
            "shippingAddress" := VNull;
            "signatureRequired" := VUndefined;
            "orderTotal" := VNum 1100%float;
            "orderStatus" := VStr "PENDING";
            "orderNo" := VStr "order-1" ]} = VObj m
    /\ dom m = {[ "customerInfo"; "orderItems"; "creditCardNumber";
                  "billingAddress"; "shippingAddress"; "signatureRequired";
                  "orderTotal"; "orderStatus"; "orderNo" ]}
    /\ m !! "orderStatus" = Some (VStr "PENDING")
    /\ calcTotal no_StringToNumber no_ArrayToNumber
         (param {[ "orderItems" := VArr [item_a; item_b] ]} "orderItems" VUndefined)
       = Ok total
    /\ m !! "orderTotal" = Some (VNum total)
    /\ m !! "orderItems"
       = Some (param {[ "orderItems" := VArr [item_a; item_b] ]} "orderItems" VUndefined)
    /\ uuid scenario_dependencies = Some orderNo
    /\ m !! "orderNo" = Some orderNo
    /\ (forall k,
          k = "billingAddress" \/ k = "shippingAddress" \/ k = "creditCardNumber" ->
          m !! k = Some (param {[ "orderItems" := VArr [item_a; item_b] ]} k VNull)
          /\ (({[ "orderItems" := VArr [item_a; item_b] ]} : gmap string value) !! k = None
              \/ ({[ "orderItems" := VArr [item_a; item_b] ]} : gmap string value) !! k
                 = Some VUndefined ->
              m !! k = Some VNull)).
Proof.
  apply (orderFactory_creates_pending_order no_StringToNumber no_ArrayToNumber
           accept_format scenario_dependencies
           {[ "orderItems" := VArr [item_a; item_b] ]}).
  apply scenario1_created.
Defined.

Lemma created_order_and_guards_witness :
  readyToDelete
    (order_with {[ "customerInfo" := VUndefined;
                   "orderItems" := VArr [item_a; item_b];
                   "creditCardNumber" := VNull;
                   "billingAddress" := VNull;
                   "shippingAddress" := VNull;
                   "signatureRequired" := VUndefined;
                   "orderTotal" := VNum 1100%float;
                   "orderStatus" := VStr "PENDING";
                   "orderNo" := VStr "order-1" ]} VUndefined)
  = Throw (Error "order status incomplete").
Proof.
  eapply (created_order_and_guards no_StringToNumber no_ArrayToNumber
            accept_format scenario_dependencies
            {[ "orderItems" := VArr [item_a; item_b] ]}).
  - apply scenario1_created.
  - reflexivity.
Defined.

Lemma continuations_check_payload_first_witness :
  trace (call_back cb_addressValidated pending_order [VStr ""]) = []
  /\ exists changes,
      trace (call_back cb_refundPayment pending_order [VStr "receipt-1"])
      = [Update changes].
Proof.
  split.
  - apply (continuations_check_payload_first cb_addressValidated pending_order
             [VStr ""]). reflexivity.
  - destruct (continuations_check_payload_first cb_refundPayment pending_order
                [VStr "receipt-1"]) as [_ Hpresent].
    destruct (Hpresent eq_refl) as (changes & Htrace & _).
    exists changes. exact Htrace.
Defined.

Lemma continuations_writing_status_witness :
  ({[ "shipmentId" := VStr "S1"; "orderStatus" := VStr "SHIPPING" ]}
     : gmap string value) !! "orderStatus"
  = status_written cb_orderShipped.
Proof.
  apply (continuations_writing_status cb_orderShipped approved_order [VStr "S1"]
           {[ "shipmentId" := VStr "S1"; "orderStatus" := VStr "SHIPPING" ]}).
  cbn. apply list_elem_of_singleton. reflexivity.
Defined.

Lemma continuation_status_against_guard_witness :
  statusChangeValid signed_order (VStr "COMPLETE")
  = Throw (Error "invalid status change").
Proof.
  apply (continuation_status_against_guard cb_paymentCompleted signed_order []
           sPENDING {[ "orderStatus" := VStr "COMPLETE" ]} (VStr "COMPLETE")).
  - eexists. split; reflexivity.
  - cbn. apply list_elem_of_singleton. reflexivity.
  - reflexivity.
Defined.

Lemma single_call_actions_witness :
  action_of sAPPROVED order_without_pickOrder
  = Task [Invoke pickOrder (Some K_orderPicked);
          ConsoleError "APPROVED" (TypeError "order.pickOrder is not a function")]
         (Settled (Throw (Error "TypeError: order.pickOrder is not a function"))).
Proof.
  apply (single_call_actions sAPPROVED pickOrder (Some K_orderPicked)
           order_without_pickOrder eq_refl).
  reflexivity.
Defined.

Lemma pending_action_when_a_call_throws_witness :
  action_PENDING order_address_down
  = Task [Invoke validateAddress (Some K_addressValidated);
          ConsoleError "PENDING" (Error "address service down")]
         (Settled (Throw (Error "Error: address service down"))).
Proof.
  apply (pending_action_when_a_call_throws order_address_down).
  reflexivity.
Defined.

Lemma actions_other_than_pending_do_not_wait_witness :
  state [] (returned (handleOrderEvent shipping_order (VStr "UPDATE")
                        (VObj {[ "orderStatus" := VStr "SHIPPING" ]})))
  <> Pending.
Proof.
  destruct (actions_other_than_pending_do_not_wait sSHIPPING shipping_order)
    as [_ Hevent]; [discriminate|].
  apply Hevent. reflexivity.
Defined.

Lemma handleOrderEvent_without_status_witness :
  effects (handleOrderEvent new_order (VStr "CREATE") VUndefined) = []
  /\ state [] (returned (handleOrderEvent new_order (VStr "CREATE") VUndefined))
     = Rejected (TypeError "OrderActions[order.orderStatus] is not a function").
Proof.
  destruct (handleOrderEvent_without_status new_order (VStr "CREATE") VUndefined)
    as (_ & Heffects & Hrejected); [left; reflexivity|].
  split; [exact Heffects | apply Hrejected; reflexivity].
Defined.

Lemma handleOrderEvent_trigger_witness :
  effects (handleOrderEvent shipping_order (VStr "UPDATE")
             (VObj {[ "orderStatus" := VStr "" ]})) <> []
  <-> (VStr "UPDATE" = VStr "CREATE"
       \/ exists m v, VObj {[ "orderStatus" := VStr "" ]} = VObj m
                      /\ m !! "orderStatus" = Some v /\ truthy v = true).
Proof.
  apply (handleOrderEvent_trigger shipping_order sSHIPPING (VStr "UPDATE")
           (VObj {[ "orderStatus" := VStr "" ]})).
  reflexivity.
Defined.

(** An update that lists orderStatus with an empty value triggers nothing. *)
Example handleOrderEvent_empty_status :
  handleOrderEvent shipping_order (VStr "UPDATE")
    (VObj {[ "orderStatus" := VStr "" ]})
  = Task [] resolved.
Proof. reflexivity. Qed.

Lemma compensation_routes_witness :
  snd (errorCallback (VStr "pickOrder") shipping_order (VStr "boom")) = Ok ()
  /\ snd (timeoutCallback (VStr "pickOrder") shipping_order) = Ok ()
  /\ returned (compensate_model shipping_order) = resolved
  /\ action_CANCELED shipping_order = Task [Invoke compensate None] resolved.
Proof.
  apply (compensation_routes shipping_order (VStr "pickOrder") (VStr "boom")).
  reflexivity.
Defined.

Lemma address_adapter_with_addressValidated_witness :
  AddressAdapter.validateAddress correcting_service address_options
  = ([Update {[ "shippingAddress" := VStr "1 Main Street" ]}],
     Resolves (VObj {[ "shippingAddress" := VStr "1 Main Street" ]})).
Proof.
  apply (address_adapter_with_addressValidated correcting_service address_options
           (VObj {[ "shippingAddress" := VStr "1 main st" ]})
           (VStr "1 main st") (VStr "1 Main Street"));
    reflexivity.
Defined.

Lemma address_adapter_settlement_witness :
  AddressAdapter.validateAddress failing_service address_options
  = ([], NeverSettles).
Proof.
  apply (address_adapter_settlement failing_service address_options)
    with (e := Error "unreachable").
  reflexivity.
Defined.

Lemma interface_adapter_add_invoke_witness :
  InterfaceAdapter.invoke "pickOrder"
    (InterfaceAdapter.add "shipOrder" (telling_adapter "ship")
       (InterfaceAdapter.add "pickOrder" (telling_adapter "pick")
          (InterfaceAdapter.create plain_adaptee)))
  = InterfaceAdapter.invoke "pickOrder"
      (InterfaceAdapter.add "pickOrder" (telling_adapter "pick")
         (InterfaceAdapter.create plain_adaptee)).
Proof.
  apply (interface_adapter_add_invoke
           (InterfaceAdapter.add "pickOrder" (telling_adapter "pick")
              (InterfaceAdapter.create plain_adaptee))
           "shipOrder" (telling_adapter "ship")).
  discriminate.
Defined.

Lemma interface_adapter_createFunctions_witness :
  InterfaceAdapter.call_member "pickOrder"
    (InterfaceAdapter.createFunctions
       (InterfaceAdapter.add "pickOrder" (telling_adapter "pick")
          (InterfaceAdapter.create plain_adaptee)))
  = Ok (VArr [VStr "pick"; VStr "pickOrder"; VBool false]).
Proof.
  apply (interface_adapter_createFunctions
           (InterfaceAdapter.add "pickOrder" (telling_adapter "pick")
              (InterfaceAdapter.create plain_adaptee))
           "pickOrder" (telling_adapter "pick")).
  reflexivity.
Defined.

(** The same adapter through [invoke] is given the adaptee. *)
Example interface_adapter_invoke_this :
  InterfaceAdapter.invoke "pickOrder"
    (InterfaceAdapter.createFunctions
       (InterfaceAdapter.add "pickOrder" (telling_adapter "pick")
          (InterfaceAdapter.create plain_adaptee)))
  = Ok (VArr [VStr "pick"; VStr "pickOrder"; VBool true]).
Proof. reflexivity. Qed.

(** *** Completed and canceled orders are frozen *)

Lemma first_frozen_all propKey o keys :
  (forall k, freezeOnCompletion k o = Ok (VStr k)) ->
  first_frozen o (propKey :: keys) = Ok (Some propKey).
Proof. intros Hfrozen. cbn. rewrite Hfrozen. reflexivity. Qed.

Lemma first_frozen_none o keys :
  (forall k, freezeOnCompletion k o = Ok VNull) ->
  first_frozen o keys = Ok None.
Proof.
  intros Hfree. induction keys as [|k keys IH]; [reflexivity|].
  cbn. rewrite Hfree. exact IH.
Qed.

Lemma processUpdate_frozen o commit changes :
  (forall k, freezeOnCompletion k o = Ok (VStr k)) ->
  changes <> ∅ ->
  processUpdate o commit changes = Throw (Error "ValidationError").
Proof.
  intros Hfrozen Hne. unfold processUpdate.
  destruct (map_to_list changes) as [|[k v] kvs] eqn:Hlist.
  - apply map_to_list_empty_iff in Hlist. contradiction.
  - cbn [map fst]. rewrite (first_frozen_all k o _ Hfrozen). reflexivity.
Qed.

(** The update a continuation proposes has at least one field. *)
Lemma call_back_update k order args :
  payload_present k args = true ->
  exists changes,
    changes <> ∅
    /\ trace (call_back k order args) = [Update changes]
    /\ (forall e, update order changes = Throw e ->
                  outcome (call_back k order args) = Throw e).
Proof.
  destruct k; unfold payload_present; run_callback; split_payload args;
    try discriminate; intros _;
    (eexists; split;
     [ | split;
         [ match goal with
           | |- context [update order ?c] => destruct (update order c); reflexivity
           | |- _ => reflexivity
           end
         | intros e ->; reflexivity ] ]);
    first [ apply insert_non_empty | apply map_non_empty_singleton ].
Qed.

(** C5, as the code has it: for an order that has a previous snapshot,
    [freezeOnCompletion(field)] returns the field name exactly when the
    snapshot's orderStatus is COMPLETE or CANCELED, and null for every other
    orderStatus.  On the guarded update path, an order whose previous status
    is COMPLETE or CANCELED therefore rejects every update that proposes a
    field, without committing it, and so every update a continuation asks
    for; for any other previous status this guard lets the update through. *)
Theorem frozen_once_complete_or_canceled o prev :
  PREVMODEL o = VObj prev ->
  let st := default VUndefined (prev !! "orderStatus") in
  (st = VStr "COMPLETE" \/ st = VStr "CANCELED" ->
   (forall propKey, freezeOnCompletion propKey o = Ok (VStr propKey))
   /\ (forall commit changes,
         changes <> ∅ ->
         processUpdate o commit changes = Throw (Error "ValidationError"))
   /\ (forall k args,
         payload_present k args = true ->
         outcome (call_back k (with_guards o) args)
         = Throw (Error "ValidationError")))
  /\ (~ (st = VStr "COMPLETE" \/ st = VStr "CANCELED") ->
      (forall propKey, freezeOnCompletion propKey o = Ok VNull)
      /\ (forall commit changes,
            processUpdate o commit changes = commit changes)).
Proof.
  intros Hprev st. split.
  - intros Hfinal.
    assert (Hfrozen : forall k, freezeOnCompletion k o = Ok (VStr k)).
    { intros k. apply (freezeOnCompletion_on_snapshot k o prev Hprev), Hfinal. }
    split; [exact Hfrozen|]. split.
    + intros commit changes Hne. apply processUpdate_frozen; assumption.
    + intros k args Hpayload.
      destruct (call_back_update k (with_guards o) args Hpayload)
        as (changes & Hne & _ & Hthrow).
      apply Hthrow. apply processUpdate_frozen; assumption.
  - intros Hother.
    assert (Hfree : forall k, freezeOnCompletion k o = Ok VNull).
    { intros k. apply (freezeOnCompletion_on_snapshot k o prev Hprev), Hother. }
    split; [exact Hfree|].
    intros commit changes. unfold processUpdate.
    rewrite (first_frozen_none o _ Hfree). reflexivity.
Qed.

Lemma frozen_once_complete_or_canceled_witness :
  freezeOnCompletion "shippingAddress" completed_order
  = Ok (VStr "shippingAddress")
  /\ processUpdate completed_order (update completed_order)
       {[ "shippingAddress" := VStr "2 Side St" ]}
     = Throw (Error "ValidationError")
  /\ outcome (trackingUpdate (with_guards completed_order)
                (VStr "T1") (VStr "orderDelivered"))
     = Throw (Error "ValidationError")
  /\ processUpdate shipping_order (update shipping_order)
       {[ "trackingId" := VStr "T1" ]}
     = Ok (VObj {[ "trackingId" := VStr "T1" ]}).
Proof.
  destruct (frozen_once_complete_or_canceled completed_order
              {[ "orderStatus" := VStr "COMPLETE" ]} eq_refl)
    as [Hfinal _].
  destruct (Hfinal (or_introl eq_refl)) as (Hkey & Hupdate & Hcall).
  destruct (frozen_once_complete_or_canceled shipping_order
              {[ "orderStatus" := VStr "APPROVED" ]} eq_refl)
    as [_ Hother].
  split; [apply Hkey|]. split.
  - apply Hupdate. apply map_non_empty_singleton.
  - split.
    + apply (Hcall cb_trackingUpdate [VStr "T1"; VStr "orderDelivered"]).
      reflexivity.
    + apply Hother. intros [H | H]; discriminate.
Defined.

(** C5, counterexample: a new order has no previous snapshot, so its
    previous status is not COMPLETE or CANCELED, and [freezeOnCompletion]
    does not return null for it: reading the status of the missing snapshot
    throws. *)
Lemma freezeOnCompletion_throws_without_snapshot :
  ~ freezeOnCompletion_key_or_null.
Proof.
  intros H. destruct (H "shippingAddress" new_order) as [_ Hnull].
  assert (Hthrow : freezeOnCompletion "shippingAddress" new_order
                   = Throw (TypeError "cannot read property orderStatus"))
    by reflexivity.
  rewrite Hthrow in Hnull.
  assert (Hnot : ~ previous_status_final new_order)
    by (intros (prev & Hprev & _); discriminate).
  specialize (Hnull Hnot). discriminate.
Qed.
